(** * Code-image generator: a shallow embedding of [app.py]

    The Flask application keeps one process-wide dictionary
    [SCREENSHOT_CACHE], a per-visitor session (a signed cookie holding
    [cache_id] and [is_redirect]) and two routes, [index] (GET and POST on
    "/") and [download_image] (GET on "/download").

    The embedding starts where the view functions start: a request is what
    the view sees ([request.method], [request.files]); the libraries the
    views call (Pygments, Playwright, [uuid], [secure_filename], the UTF-8
    codec) are either modelled here or taken as an explicit environment
    whose calls may raise.  Requests are handled one after the other.

    Of Flask itself the embedding keeps what the views meet: the limit
    [MAX_CONTENT_LENGTH] puts on the request body, enforced when
    [request.files] is read, and the HEAD requests a GET route also answers.
    Outside it are the template [index.html], of which only the arguments
    are kept, the signing of the cookie, and what Flask makes of an
    exception or a [None] that leaves a view. *)

From Stdlib Require Import ZArith NArith String Ascii List Lia.
From Stdlib.Strings Require Import Byte.
From Stdlib Require Import SpecFloat.
From stdpp Require Import base option gmap strings list fin_maps.

Local Open Scope string_scope.

(** ** Python strings *)

Module PyStr.

(** [s.startswith(p)] *)
Fixpoint startswith (p s : string) : bool :=
  match p, s with
  | EmptyString, _ => true
  | String a p', String b s' => if Ascii.eqb a b then startswith p' s' else false
  | String _ _, EmptyString => false
  end.

(** [sub in s] *)
Fixpoint contains (sub s : string) : bool :=
  startswith sub s ||
  match s with
  | EmptyString => false
  | String _ s' => contains sub s'
  end.

(** [s.rsplit(sep, 1)]: [Some (head, tail)] when [sep] occurs in [s], split
    at its last occurrence; [None] when it does not (Python then returns
    the one-element list [[s]]). *)
Fixpoint rsplit1 (sep : ascii) (s : string) : option (string * string) :=
  match s with
  | EmptyString => None
  | String c s' =>
      match rsplit1 sep s' with
      | Some (h, t) => Some (String c h, t)
      | None => if Ascii.eqb c sep then Some (EmptyString, s') else None
      end
  end.

(** [s.rsplit(sep, 1)[0]] *)
Definition rsplit1_head (sep : ascii) (s : string) : string :=
  match rsplit1 sep s with
  | Some (h, _) => h
  | None => s
  end.

(** [c in s] for one character *)
Fixpoint has_char (c : ascii) (s : string) : bool :=
  match s with
  | EmptyString => false
  | String a s' => Ascii.eqb a c || has_char c s'
  end.

(** [s.endswith(suffix)] *)
Fixpoint endswith (suffix s : string) : bool :=
  String.eqb suffix s ||
  match s with
  | EmptyString => false
  | String _ s' => endswith suffix s'
  end.

(** [s.lstrip(chars)], [s.rstrip(chars)], [s.strip(chars)] *)
Fixpoint lstrip (chars s : string) : string :=
  match s with
  | EmptyString => EmptyString
  | String c s' => if has_char c chars then lstrip chars s' else s
  end.

Fixpoint rstrip (chars s : string) : string :=
  match s with
  | EmptyString => EmptyString
  | String c s' =>
      match rstrip chars s' with
      | EmptyString => if has_char c chars then EmptyString else String c EmptyString
      | r => String c r
      end
  end.

Definition strip (chars s : string) : string := rstrip chars (lstrip chars s).

(** [s.replace(a, b)] for single characters *)
Fixpoint replace_char (a b : ascii) (s : string) : string :=
  match s with
  | EmptyString => EmptyString
  | String c s' => String (if Ascii.eqb c a then b else c) (replace_char a b s')
  end.

(** ASCII white space as [str.split()] sees it: tab, line feed, vertical
    tab, form feed, carriage return, the four separators 28..31, space. *)
Definition isspace (c : ascii) : bool :=
  let n := N_of_ascii c in
  ((9 <=? n) && (n <=? 13) || (28 <=? n) && (n <=? 32))%N.

(** [s.split()]: the maximal runs of non-space characters.  [cur] is the
    run being read, reversed. *)
Fixpoint split_go (s : string) (cur : list ascii) : list string :=
  let flush (rest : list string) :=
    match cur with
    | [] => rest
    | _ => string_of_list_ascii (rev cur) :: rest
    end in
  match s with
  | EmptyString => flush []
  | String c s' =>
      if isspace c then flush (split_go s' []) else split_go s' (c :: cur)
  end.

Definition split (s : string) : list string := split_go s [].

(** [sep.join(l)] *)
Fixpoint join (sep : string) (l : list string) : string :=
  match l with
  | [] => EmptyString
  | [x] => x
  | x :: l' => x +:+ sep +:+ join sep l'
  end.

(** [re.sub(r"[^...]", "", s)] for a character class given as a test *)
Fixpoint keep (ok : ascii -> bool) (s : string) : string :=
  match s with
  | EmptyString => EmptyString
  | String c s' => if ok c then String c (keep ok s') else keep ok s'
  end.

(** [str(n)] for a non-negative integer *)
Definition digit (d : N) : ascii := ascii_of_N (48 + d).

Fixpoint str_N_go (fuel : nat) (n : N) (acc : string) : string :=
  match fuel with
  | O => acc
  | S f =>
      let acc' := String (digit (n mod 10)) acc in
      if (n / 10 =? 0)%N then acc' else str_N_go f (n / 10) acc'
  end.

Definition str_N (n : N) : string := str_N_go (S (N.to_nat (N.log2 n))) n EmptyString.

(** ['%0kx' % n], most significant digit first *)
Definition hexdigit (d : N) : ascii :=
  if (d <? 10)%N then ascii_of_N (48 + d) else ascii_of_N (87 + d).

Fixpoint hex_pad (k : nat) (n : N) (acc : string) : string :=
  match k with
  | O => acc
  | S k' => hex_pad k' (n / 16) (String (hexdigit (n mod 16)) acc)
  end.

(** Python truthiness of a string and of an optional value *)
Definition truthy (s : string) : bool := negb (String.eqb s EmptyString).

End PyStr.

(** ** The UTF-8 codec, [bytes.decode("utf-8")] in strict mode

    Well-formed sequences are those of the Unicode standard: no overlong
    forms, no surrogates, nothing above U+10FFFF. *)

Module Utf8.

Local Open Scope N_scope.

Definition is_cont (b : N) : bool := (0x80 <=? b) && (b <=? 0xBF).
Definition payload (b : N) : N := b - 0x80.

(** [decode bs]: the code points, or [None] where Python raises
    [UnicodeDecodeError]. *)
Fixpoint decode (bs : list N) : option (list N) :=
  match bs with
  | [] => Some []
  | b0 :: r0 =>
      if b0 <? 0x80 then cons b0 <$> decode r0
      else if (0xC2 <=? b0) && (b0 <=? 0xDF) then
        match r0 with
        | b1 :: r1 =>
            if is_cont b1
            then cons ((b0 - 0xC0) * 64 + payload b1) <$> decode r1
            else None
        | _ => None
        end
      else if (0xE0 <=? b0) && (b0 <=? 0xEF) then
        match r0 with
        | b1 :: b2 :: r2 =>
            let lo := if b0 =? 0xE0 then 0xA0 else 0x80 in
            let hi := if b0 =? 0xED then 0x9F else 0xBF in
            if (lo <=? b1) && (b1 <=? hi) && is_cont b2
            then cons ((b0 - 0xE0) * 4096 + payload b1 * 64 + payload b2) <$> decode r2
            else None
        | _ => None
        end
      else if (0xF0 <=? b0) && (b0 <=? 0xF4) then
        match r0 with
        | b1 :: b2 :: b3 :: r3 =>
            let lo := if b0 =? 0xF0 then 0x90 else 0x80 in
            let hi := if b0 =? 0xF4 then 0x8F else 0xBF in
            if (lo <=? b1) && (b1 <=? hi) && is_cont b2 && is_cont b3
            then cons ((b0 - 0xF0) * 262144 + payload b1 * 4096
                       + payload b2 * 64 + payload b3) <$> decode r3
            else None
        | _ => None
        end
      else None
  end.

Definition decode_bytes (bs : list byte) : option (list N) :=
  decode (Byte.to_N <$> bs).

End Utf8.

(** ** [uuid.uuid4()] and [str] of a UUID *)

Module Uuid.

Local Open Scope N_scope.

(** [UUID(bytes=os.urandom(16), version=4)]: the 128 random bits with
    the variant set to RFC 4122 and the version to 4. *)
Definition uuid4 (urandom : N) : N :=
  let i := urandom mod 2 ^ 128 in
  let i := N.ldiff i (N.shiftl 0xc000 48) in
  let i := N.lor i (N.shiftl 0x8000 48) in
  let i := N.ldiff i (N.shiftl 0xf000 64) in
  N.lor i (N.shiftl 4 76).

(** [UUID.__str__]: 32 hexadecimal digits grouped 8-4-4-4-12 *)
Definition str (u : N) : string :=
  let hex := PyStr.hex_pad 32 u EmptyString in
  substring 0 8 hex +:+ "-" +:+ substring 8 4 hex +:+ "-" +:+
  substring 12 4 hex +:+ "-" +:+ substring 16 4 hex +:+ "-" +:+
  substring 20 12 hex.

End Uuid.

(** ** Python numbers: [int] and [float] (IEEE 754 binary64)

    Playwright's [bounding_box()] returns floats; the viewport dictionary
    mixes them with the integer literals 1280, 720 and 40. *)

Module PyNum.

Definition prec : Z := 53.
Definition emax : Z := 1024.

Inductive num : Type :=
| PyInt (z : Z)
| PyFloat (f : spec_float).

(** [float(z)], exact for every integer of magnitude below 2^53 *)
Definition float_of_int (z : Z) : spec_float := binary_normalize prec emax z 0 false.

Definition to_float (a : num) : spec_float :=
  match a with
  | PyInt z => float_of_int z
  | PyFloat f => f
  end.

(** [a + b] *)
Definition add (a b : num) : num :=
  match a, b with
  | PyInt x, PyInt y => PyInt (x + y)
  | _, _ => PyFloat (SFadd prec emax (to_float a) (to_float b))
  end.

(** [a < b]; comparing an [int] with a [float] is exact in Python, and so
    is the conversion for the integers used here. *)
Definition lt (a b : num) : bool :=
  match a, b with
  | PyInt x, PyInt y => (x <? y)%Z
  | _, _ => SFltb (to_float a) (to_float b)
  end.

(** [a <= b] *)
Definition le (a b : num) : bool :=
  match a, b with
  | PyInt x, PyInt y => (x <=? y)%Z
  | _, _ => SFleb (to_float a) (to_float b)
  end.

(** [min(a, b)]: the first argument unless the second is smaller *)
Definition min (a b : num) : num := if lt b a then b else a.

End PyNum.

(** ** Exceptions and the state-and-exception monad of the views *)

Inductive exc_class : Type :=
| PlaywrightError
| PlaywrightTimeoutError   (* a subclass of [PlaywrightError] *)
| RuntimeError
| UnicodeDecodeError
| TypeError
| KeyError
| RequestEntityTooLarge    (* Werkzeug's HTTP 413 *)
| OtherException.

(** An exception object; [exc_str e] is [str(e)]. *)
Record exception : Type := Raise { exc_cls : exc_class; exc_str : string }.

Definition exc_class_eqb (a b : exc_class) : bool :=
  match a, b with
  | PlaywrightError, PlaywrightError
  | PlaywrightTimeoutError, PlaywrightTimeoutError
  | RuntimeError, RuntimeError
  | UnicodeDecodeError, UnicodeDecodeError
  | TypeError, TypeError
  | KeyError, KeyError
  | RequestEntityTooLarge, RequestEntityTooLarge
  | OtherException, OtherException => true
  | _, _ => false
  end.

(** [isinstance(e, cls)]; what [except cls] tests *)
Definition isinstance (e : exception) (cls : exc_class) : bool :=
  exc_class_eqb (exc_cls e) cls ||
  match exc_cls e, cls with
  | PlaywrightTimeoutError, PlaywrightError => true
  | _, _ => false
  end.

(** A computation over a state [St]: it returns a value or raises, and the
    state reached is kept in both cases (Python rolls nothing back). *)
Definition M (St A : Type) : Type := St -> (exception + A) * St.

Section Monad.
Context {St : Type}.

Definition ret {A} (a : A) : M St A := fun s => (inr a, s).

Definition bind {A B} (m : M St A) (k : A -> M St B) : M St B :=
  fun s =>
    match m s with
    | (inr a, s') => k a s'
    | (inl e, s') => (inl e, s')
    end.

(** [raise e] *)
Definition throw {A} (e : exception) : M St A := fun s => (inl e, s).

(** [try: m  except Exception as e: h e] *)
Definition try_except {A} (m : M St A) (h : exception -> M St A) : M St A :=
  fun s =>
    match m s with
    | (inr a, s') => (inr a, s')
    | (inl e, s') => h e s'
    end.

Definition get : M St St := fun s => (inr s, s).
Definition put (s : St) : M St unit := fun _ => (inr tt, s).
Definition modify (f : St -> St) : M St unit := fun s => (inr tt, f s).

(** the outcome of a library call *)
Definition call {A} (r : exception + A) : M St A := fun s => (r, s).

(** run [m] and hand back how it ended, raising nothing *)
Definition attempt {A} (m : M St A) : M St (exception + A) :=
  fun s => match m s with (r, s') => (inr r, s') end.
End Monad.

Notation "x <- m ;; k" := (bind m (fun x => k))
  (at level 100, m at next level, right associativity, only parsing).
Notation "m ;;; k" := (bind m (fun _ => k))
  (at level 100, right associativity, only parsing).

(** ** [werkzeug.utils.secure_filename] *)

Module Werkzeug.

Record Os : Type := { os_name : string; os_sep : ascii; os_altsep : option ascii }.

Definition posix : Os := {| os_name := "posix"; os_sep := "/"; os_altsep := None |}.
Definition nt : Os := {| os_name := "nt"; os_sep := "\"; os_altsep := Some "/"%char |}.

(** the class [A-Za-z0-9_.-] of [_filename_ascii_strip_re] *)
Definition safe_char (c : ascii) : bool :=
  let n := N_of_ascii c in
  ((65 <=? n) && (n <=? 90) || (97 <=? n) && (n <=? 122) || (48 <=? n) && (n <=? 57)
   || (n =? 95) || (n =? 46) || (n =? 45))%N.

Definition upper_char (c : ascii) : ascii :=
  let n := N_of_ascii c in
  if ((97 <=? n) && (n <=? 122))%N then ascii_of_N (n - 32) else c.

Fixpoint upper (s : string) : string :=
  match s with
  | EmptyString => EmptyString
  | String c s' => String (upper_char c) (upper s')
  end.

(** [s.split(".")[0]] *)
Fixpoint split_head (sep : ascii) (s : string) : string :=
  match s with
  | EmptyString => EmptyString
  | String c s' => if Ascii.eqb c sep then EmptyString else String c (split_head sep s')
  end.

Definition windows_device_files : list string :=
  ["CON"; "PRN"; "AUX"; "NUL"] ++
  map (fun i => "COM" +:+ PyStr.str_N i) [0;1;2;3;4;5;6;7;8;9]%N ++
  map (fun i => "LPT" +:+ PyStr.str_N i) [0;1;2;3;4;5;6;7;8;9]%N.

(** [to_ascii] stands for the first two lines of the function,
    [unicodedata.normalize("NFKD", s).encode("ascii", "ignore").decode("ascii")];
    it is the identity on ASCII names. *)
Definition secure_filename (os : Os) (to_ascii : string -> string) (filename : string) : string :=
  let filename := to_ascii filename in
  let filename := PyStr.replace_char (os_sep os) " " filename in
  let filename :=
    match os_altsep os with
    | Some sep => PyStr.replace_char sep " " filename
    | None => filename
    end in
  let filename :=
    PyStr.strip "._" (PyStr.keep safe_char (PyStr.join "_" (PyStr.split filename))) in
  if String.eqb (os_name os) "nt" && PyStr.truthy filename
     && existsb (String.eqb (upper (split_head "." filename))) windows_device_files
  then "_" +:+ filename
  else filename.

End Werkzeug.

(** ** The rendering libraries: Pygments and Playwright

    Every call the renderer makes is recorded in a trace; what a call
    returns, or raises, is given by the environment and may depend on the
    calls made before it. *)

Record FloatRect : Type := { x : spec_float; y : spec_float; width : spec_float; height : spec_float }.

Inductive Call : Type :=
| SyncPlaywright
| WebkitLaunch
| NewContext (device_scale_factor : Z) (viewport_width viewport_height : Z)
| NewPage
| HtmlFormatterNew (style : string)
| Highlight (code : list N)
| GetStyleDefs
| BackgroundColor
| SetContent (html : string)
| Locator (selector : string)
| BoundingBox
| SetViewportSize (width height : PyNum.num)
| Screenshot (type : string)
| BrowserClose
| SyncPlaywrightExit.

(** The calls made so far, the latest first. *)
Definition Trace : Type := list Call.

Record Env : Type := {
  (* Playwright *)
  sync_playwright : Trace -> exception + unit;
  sync_playwright_exit : Trace -> exception + unit;
  webkit_launch : Trace -> exception + unit;
  new_context : Trace -> exception + unit;
  new_page : Trace -> exception + unit;
  set_content : Trace -> exception + unit;
  locator : Trace -> exception + unit;
  bounding_box : Trace -> exception + option FloatRect;
  set_viewport_size : Trace -> exception + unit;
  screenshot : Trace -> exception + list byte;
  browser_close : Trace -> exception + unit;
  (* Pygments *)
  html_formatter : Trace -> exception + unit;
  highlight : Trace -> exception + string;
  get_style_defs : Trace -> exception + string;
  background_color : Trace -> exception + string;
  (* the platform *)
  os : Werkzeug.Os;
  nfkd_ascii : string -> string;
  urandom16 : N
}.

(** One library call: record it, then return or raise as the environment
    says.  The environment sees the trace with the call in it, so the
    arguments of the call are part of what it answers to. *)
Definition perform {A} (c : Call) (answer : Trace -> exception + A) : M Trace A :=
  modify (cons c) ;;; t <- get ;; call (answer t).

Definition THEME : string := "monokai".

Definition dq : string := String (ascii_of_N 34) EmptyString.

(** The f-string [html_content] *)
Definition html_content (style_defs background_color highlighted_code : string) : string :=
"
            <!DOCTYPE html>
            <html lang=" +:+ dq +:+ "en" +:+ dq +:+ ">
            <head>
                <meta charset=" +:+ dq +:+ "UTF-8" +:+ dq +:+ ">
                <meta name=" +:+ dq +:+ "viewport" +:+ dq +:+ " content=" +:+ dq +:+ "width=device-width, initial-scale=1.0" +:+ dq +:+ ">
                <title>Preview</title>
                <style>
                    " +:+ style_defs +:+ "
                    .my_code {
                        background-color: " +:+ background_color +:+ ";
                        padding: 20px;
                        font-family: 'Courier New', Courier, monospace;
                        font-size: 16px;
                        line-height: 1.5;
                        white-space: pre-wrap;
                        border-radius: 8px;
                        box-shadow: 0 2px 5px rgba(0,0,0,0.2);
                        max-width: 1200px;
                        margin: 20px auto;
                    }
                    body {
                        margin: 0;
                        padding: 0;
                        display: flex;
                        justify-content: center;
                        align-items: center;
                        min-height: 100vh;
                    }
                </style>
            </head>
            <body>
                <div class=" +:+ dq +:+ "my_code" +:+ dq +:+ ">" +:+ highlighted_code +:+ "</div>
            </body>
            </html>
            ".

(** [element.bounding_box()[key]]: subscripting [None] raises [TypeError]. *)
Definition subscript (box : option FloatRect) (key : FloatRect -> spec_float) : M Trace PyNum.num :=
  match box with
  | Some r => ret (PyNum.PyFloat (key r))
  | None => throw (Raise TypeError "'NoneType' object is not subscriptable")
  end.

(** [with sync_playwright() as playwright: body]: the context is entered,
    and it is left when the body returns and when it raises; an exception of
    the exit replaces the one of the body. *)
Definition with_sync_playwright {A} (env : Env) (body : M Trace A) : M Trace A :=
  perform SyncPlaywright (sync_playwright env) ;;;
  outcome <- attempt body ;;
  perform SyncPlaywrightExit (sync_playwright_exit env) ;;;
  call outcome.

(** The body of the [with] in [generate_screenshot] *)
Definition generate_screenshot_with (env : Env) (code_content : list N) (filename : string)
  : M Trace (list byte * string) :=
  perform WebkitLaunch (webkit_launch env) ;;;
  perform (NewContext 3 1280 720) (new_context env) ;;;
  perform NewPage (new_page env) ;;;
  perform (HtmlFormatterNew THEME) (html_formatter env) ;;;
  highlighted_code <- perform (Highlight code_content) (highlight env) ;;
  style_defs <- perform GetStyleDefs (get_style_defs env) ;;
  background <- perform BackgroundColor (background_color env) ;;
  perform (SetContent (html_content style_defs background highlighted_code)) (set_content env) ;;;
  perform (Locator ".my_code") (locator env) ;;;
  box_w <- perform BoundingBox (bounding_box env) ;;
  w <- subscript box_w width ;;
  box_h <- perform BoundingBox (bounding_box env) ;;
  h <- subscript box_h height ;;
  perform (SetViewportSize
             (PyNum.min (PyNum.PyInt 1280) (PyNum.add w (PyNum.PyInt 40)))
             (PyNum.min (PyNum.PyInt 720) (PyNum.add h (PyNum.PyInt 40))))
          (set_viewport_size env) ;;;
  screenshot_bytes <- perform (Screenshot "png") (screenshot env) ;;
  perform BrowserClose (browser_close env) ;;;
  ret (screenshot_bytes, PyStr.rsplit1_head "." filename +:+ "_code_image.png").

(** The body of the [try] in [generate_screenshot] *)
Definition generate_screenshot_try (env : Env) (code_content : list N) (filename : string)
  : M Trace (list byte * string) :=
  with_sync_playwright env (generate_screenshot_with env code_content filename).

Definition BINARIES_MISSING : string :=
  "Playwright browser binaries are missing. Please ensure 'playwright install' is run during deployment.".

(** The two [except] clauses of [generate_screenshot] *)
Definition generate_screenshot_except (e : exception) : M Trace (list byte * string) :=
  if isinstance e PlaywrightError then
    if PyStr.contains "Executable doesn't exist" (exc_str e)
    then throw (Raise RuntimeError BINARIES_MISSING)
    else throw (Raise RuntimeError ("Failed to generate screenshot: " +:+ exc_str e))
  else throw (Raise RuntimeError ("Failed to generate screenshot: " +:+ exc_str e)).

Definition generate_screenshot (env : Env) (code_content : list N) (filename : string)
  : M Trace (list byte * string) :=
  try_except (generate_screenshot_try env code_content filename) generate_screenshot_except.

(** ** The application state *)

(** A value of [SCREENSHOT_CACHE]: the dictionary with keys ['bytes'] and
    ['filename']. *)
Record CacheEntry : Type := { bytes : list byte; filename : string }.

(** The two keys the views keep in Flask's [session]. *)
Record Session : Type := { cache_id : option string; is_redirect : option bool }.

(** An uploaded file as the view reads it: [file.filename] and the content of
    its stream. *)
Module FileStorage.
Record t : Type := { filename : string; stream : list byte }.
End FileStorage.

(** The methods Flask hands to the views: the route of [index] lists GET and
    POST, and a route that lists GET answers HEAD too. *)
Inductive Method : Type := GET | POST | HEAD.

(** [request.method], the parts of [request.files] (a multi-dict in field
    order) and the size of the request body in bytes, which holds the parts
    and their multipart framing *)
Record Request : Type := {
  method : Method;
  files : list (string * FileStorage.t);
  content_length : N
}.

(** What a view returns: a response, or [None] when it falls off its end *)
Inductive Response : Type :=
| render_template (template : string) (image_data : option (list byte))
    (image_filename : option string) (cache_id : option string)
| redirect (location : string)
| MkResponse (body : list byte) (mimetype : string) (headers : list (string * string))
| ReturnedNone.

(** What a view reads and writes while it handles one request: the global
    cache, the visitor's session, the messages queued by [flash] (oldest
    first) and the renderer's calls. *)
Record State : Type := {
  SCREENSHOT_CACHE : gmap string CacheEntry;
  session : Session;
  flashes : list (string * string);
  calls : Trace
}.

Definition set_cache (f : gmap string CacheEntry -> gmap string CacheEntry) (st : State) : State :=
  {| SCREENSHOT_CACHE := f (SCREENSHOT_CACHE st); session := session st;
     flashes := flashes st; calls := calls st |}.

Definition set_session (f : Session -> Session) (st : State) : State :=
  {| SCREENSHOT_CACHE := SCREENSHOT_CACHE st; session := f (session st);
     flashes := flashes st; calls := calls st |}.

(** [flash(message, category)] *)
Definition flash (message category : string) : M State unit :=
  modify (fun st =>
    {| SCREENSHOT_CACHE := SCREENSHOT_CACHE st; session := session st;
       flashes := flashes st ++ [(message, category)]; calls := calls st |}).

(** a renderer computation run inside a view *)
Definition in_browser {A} (m : M Trace A) : M State A :=
  fun st =>
    let (r, t) := m (calls st) in
    (r, {| SCREENSHOT_CACHE := SCREENSHOT_CACHE st; session := session st;
           flashes := flashes st; calls := t |}).

(** [session.pop('is_redirect', default)] *)
Definition session_pop_is_redirect (default : bool) : M State bool :=
  st <- get ;;
  modify (set_session (fun s => {| cache_id := cache_id s; is_redirect := None |})) ;;;
  ret (match is_redirect (session st) with Some b => b | None => default end).

(** [session.get('cache_id')] *)
Definition session_get_cache_id : M State (option string) :=
  st <- get ;; ret (cache_id (session st)).

(** [session.pop('cache_id', None)] *)
Definition session_pop_cache_id : M State unit :=
  modify (set_session (fun s => {| cache_id := None; is_redirect := is_redirect s |})).

(** [session['cache_id'] = v], [session['is_redirect'] = v] *)
Definition session_set_cache_id (v : string) : M State unit :=
  modify (set_session (fun s => {| cache_id := Some v; is_redirect := is_redirect s |})).

Definition session_set_is_redirect (v : bool) : M State unit :=
  modify (set_session (fun s => {| cache_id := cache_id s; is_redirect := Some v |})).

(** [SCREENSHOT_CACHE.clear()] *)
Definition cache_clear : M State unit := modify (set_cache (fun _ => ∅)).

(** [cache_id and cache_id in SCREENSHOT_CACHE], as a truth value *)
Definition truthy_and_cached (cache_id : option string) : M State bool :=
  st <- get ;;
  ret (match cache_id with
       | Some k => PyStr.truthy k && bool_decide (is_Some (SCREENSHOT_CACHE st !! k))
       | None => false
       end).

(** [SCREENSHOT_CACHE[cache_id]]: [KeyError] when the key is not there *)
Definition cache_getitem (cache_id : option string) : M State CacheEntry :=
  st <- get ;;
  match cache_id with
  | Some k =>
      match SCREENSHOT_CACHE st !! k with
      | Some entry => ret entry
      | None => throw (Raise KeyError k)
      end
  | None => throw (Raise KeyError "None")
  end.

(** [SCREENSHOT_CACHE[cache_id] = entry] *)
Definition cache_setitem (cache_id : string) (entry : CacheEntry) : M State unit :=
  modify (set_cache (insert cache_id entry)).

(** [SCREENSHOT_CACHE.pop(cache_id, None)] *)
Definition cache_pop (cache_id : option string) : M State unit :=
  match cache_id with
  | Some k => modify (set_cache (delete k))
  | None => ret tt
  end.

(** [request.files.get(name)]: the first part with that field name *)
Fixpoint files_get (name : string) (files : list (string * FileStorage.t)) : option FileStorage.t :=
  match files with
  | [] => None
  | (k, f) :: rest => if String.eqb k name then Some f else files_get name rest
  end.

(** [app.config['MAX_CONTENT_LENGTH']] *)
Definition MAX_CONTENT_LENGTH : N := 1 * 1024 * 1024.

(** [url_for('index')] *)
Definition url_for_index : string := "/".

(** [file.seek(0, os.SEEK_END); file.tell()] *)
Definition file_size (file : FileStorage.t) : N := N.of_nat (length (FileStorage.stream file)).

(** Werkzeug's [RequestEntityTooLarge()] *)
Definition ENTITY_TOO_LARGE : exception :=
  Raise RequestEntityTooLarge "413 Request Entity Too Large".

(** [request.files]: Flask parses the body when the attribute is first read,
    and refuses, with [RequestEntityTooLarge] (HTTP 413), a body of more
    than [MAX_CONTENT_LENGTH] bytes. *)
Definition request_files (request : Request) : M State (list (string * FileStorage.t)) :=
  if (MAX_CONTENT_LENGTH <? content_length request)%N
  then throw ENTITY_TOO_LARGE
  else ret (files request).

(** The body of a request holds each file it carries between the boundary
    lines and the headers of its part, so it is longer than the file. *)
Definition carries (request : Request) (file : FileStorage.t) : Prop :=
  (file_size file < content_length request)%N.

(** [file.read().decode("utf-8")] *)
Definition read_decode (file : FileStorage.t) : M State (list N) :=
  match Utf8.decode_bytes (FileStorage.stream file) with
  | Some text => ret text
  | None => throw (Raise UnicodeDecodeError "'utf-8' codec can't decode bytes")
  end.

(** ** The view [index] *)

Definition index_get : M State Response :=
  is_redirect <- session_pop_is_redirect false ;;
  cache_id <- session_get_cache_id ;;
  stale <- truthy_and_cached cache_id ;;
  if negb is_redirect && stale then
    session_pop_cache_id ;;;
    cache_clear ;;;
    ret (render_template "index.html" None None cache_id)
  else if stale then
    entry <- cache_getitem cache_id ;;
    ret (render_template "index.html" (Some (bytes entry)) (Some (filename entry)) cache_id)
  else
    ret (render_template "index.html" None None cache_id).

(** The form on its own, [render_template("index.html")] *)
Definition form : Response := render_template "index.html" None None None.

(** The second [try] of the POST branch, from the renderer to the redirect *)
Definition index_post_render (env : Env) (code_content : list N) (filename : string)
  : M State Response :=
  try_except
    (rendered <- in_browser (generate_screenshot env code_content filename) ;;
     let '(screenshot_bytes, image_filename) := rendered in
     let cache_id := Uuid.str (Uuid.uuid4 (urandom16 env)) in
     cache_setitem cache_id {| bytes := screenshot_bytes; filename := image_filename |} ;;;
     session_set_cache_id cache_id ;;;
     session_set_is_redirect true ;;;
     ret (redirect url_for_index))
    (fun e =>
       if isinstance e RuntimeError then
         flash (exc_str e) "danger" ;;; ret form
       else
         flash ("Unexpected error: " +:+ exc_str e) "danger" ;;; ret form).

Definition index_post (env : Env) (request : Request) : M State Response :=
  session_pop_cache_id ;;;
  session_pop_is_redirect false ;;;
  cache_clear ;;;
  request_files <- request_files request ;;
  match files_get "code_file" request_files with
  | None => flash "No file uploaded." "danger" ;;; ret form
  | Some file =>
      if String.eqb (FileStorage.filename file) EmptyString then
        flash "No file selected." "danger" ;;; ret form
      else if (MAX_CONTENT_LENGTH <? file_size file)%N then
        flash ("File too large. Maximum size is "
               +:+ PyStr.str_N (MAX_CONTENT_LENGTH / 1024) +:+ " KB.") "danger" ;;;
        ret form
      else
        let filename :=
          Werkzeug.secure_filename (os env) (nfkd_ascii env) (FileStorage.filename file) in
        decoded <- try_except
                     (code_content <- read_decode file ;; ret (inr code_content : Response + list N))
                     (fun e =>
                        if isinstance e UnicodeDecodeError then
                          flash "Invalid file encoding. Please upload a UTF-8 encoded text file."
                                "danger" ;;;
                          ret (inl form)
                        else
                          flash ("Error reading file: " +:+ exc_str e) "danger" ;;;
                          ret (inl form)) ;;
        match decoded with
        | inl response => ret response
        | inr code_content => index_post_render env code_content filename
        end
  end.

Definition index (env : Env) (request : Request) : M State Response :=
  match method request with
  | GET => index_get
  | POST => index_post env request
  | HEAD => ret ReturnedNone
  end.

(** ** The view [download_image] *)

Definition download_image : M State Response :=
  cache_id <- session_get_cache_id ;;
  cached <- truthy_and_cached cache_id ;;
  if negb cached then
    flash "No image available for download. Please generate an image first." "danger" ;;;
    ret (redirect url_for_index)
  else
    screenshot_data <- cache_getitem cache_id ;;
    let screenshot_bytes := bytes screenshot_data in
    let image_filename := filename screenshot_data in
    try_except
      (let response :=
         MkResponse screenshot_bytes "image/png"
           [("Content-Disposition", "attachment; filename=" +:+ image_filename)] in
       cache_pop cache_id ;;;
       session_pop_cache_id ;;;
       session_pop_is_redirect false ;;;
       ret response)
      (fun e =>
         flash ("Error serving download: " +:+ exc_str e) "danger" ;;;
         ret (redirect url_for_index)).

(** ** The server between requests

    What outlives a request is the cache, process-wide, and the session the
    visitor's cookie carries.  A request starts with no message flashed and
    no renderer call made. *)

Definition request_state (cache : gmap string CacheEntry) (s : Session) : State :=
  {| SCREENSHOT_CACHE := cache; session := s; flashes := []; calls := [] |}.

(** [download_image] reads nothing of the request, so it runs the same on
    the GET and on the HEAD its route answers. *)
Inductive View : Type :=
| ViewIndex (env : Env) (request : Request)
| ViewDownload.

Definition run_view (v : View) : M State Response :=
  match v with
  | ViewIndex env request => index env request
  | ViewDownload => download_image
  end.

(** The stores the process can hold between two requests: it starts empty,
    and each request, whatever session it presents, runs one view. *)
Inductive reachable : gmap string CacheEntry -> Prop :=
| reachable_start : reachable ∅
| reachable_request cache v s :
    reachable cache ->
    reachable (SCREENSHOT_CACHE (snd (run_view v (request_state cache s)))).

(** The sessions a cookie of this application can carry: none at first, then
    whatever a view left in it. *)
Inductive issued : Session -> Prop :=
| issued_new : issued {| cache_id := None; is_redirect := None |}
| issued_request cache v s :
    issued s ->
    issued (session (snd (run_view v (request_state cache s)))).

(** Every value a session holds is truthy: the views store nothing but
    [str(uuid.uuid4())] and [True]. *)
Definition session_truthy (s : Session) : Prop :=
  (forall k, cache_id s = Some k -> k <> EmptyString) /\ is_redirect s <> Some false.

(** The cleared state every POST starts from *)
Definition cleared (st : State) : State :=
  {| SCREENSHOT_CACHE := ∅; session := {| cache_id := None; is_redirect := None |};
     flashes := flashes st; calls := calls st |}.

(** The state after [flash(message, "danger")] *)
Definition flashed (message : string) (st : State) : State :=
  {| SCREENSHOT_CACHE := SCREENSHOT_CACHE st; session := session st;
     flashes := flashes st ++ [(message, "danger")]; calls := calls st |}.

(** The identifier a successful upload stores its image under *)
Definition fresh_id (env : Env) : string := Uuid.str (Uuid.uuid4 (urandom16 env)).

(** The session of a visitor with no cookie, and of one whose keys were
    both popped *)
Definition no_session : Session := {| cache_id := None; is_redirect := None |}.

(** Every character of [s] passes the test [p]. *)
Fixpoint all_chars (p : ascii -> bool) (s : string) : bool :=
  match s with
  | EmptyString => true
  | String c s' => p c && all_chars p s'
  end.

(** A character [secure_filename] leaves nothing of at the ends of a name:
    one outside [A-Za-z0-9_.-] (path separators and white space among
    them), a dot or an underscore. *)
Definition unsafe_or_stripped (c : ascii) : bool :=
  negb (Werkzeug.safe_char c) || PyStr.has_char c "._".

(** The attachment [download_image] builds from a cache entry *)
Definition attachment (e : CacheEntry) : Response :=
  MkResponse (bytes e) "image/png"
    [("Content-Disposition", "attachment; filename=" +:+ filename e)].

Definition NO_IMAGE : string :=
  "No image available for download. Please generate an image first.".

Definition TOO_LARGE : string := "File too large. Maximum size is 1024 KB.".

Definition INVALID_ENCODING : string :=
  "Invalid file encoding. Please upload a UTF-8 encoded text file.".

(** ** Sample environments and uploads *)

Definition ok {A} (a : A) : Trace -> exception + A := fun _ => inr a.

(** A machine where every library call succeeds: the content measures
    300 by 96 pixels and the screenshot is a four-byte stand-in. *)
Definition sample_env : Env := {|
  sync_playwright := ok tt;
  sync_playwright_exit := ok tt;
  webkit_launch := ok tt;
  new_context := ok tt;
  new_page := ok tt;
  set_content := ok tt;
  locator := ok tt;
  bounding_box :=
    ok (Some {| x := PyNum.float_of_int 490; y := PyNum.float_of_int 20;
                width := PyNum.float_of_int 300; height := PyNum.float_of_int 96 |});
  set_viewport_size := ok tt;
  screenshot := ok [x89; x50; x4e; x47];
  browser_close := ok tt;
  html_formatter := ok tt;
  highlight := ok "<div class=highlight><pre>pass</pre></div>";
  get_style_defs := ok ".hll { background-color: #49483e }";
  background_color := ok "#272822";
  os := Werkzeug.posix;
  nfkd_ascii := id;
  urandom16 := 0x0123456789abcdef0123456789abcdef
|}.

(** The same machine with another draw of [os.urandom] *)
Definition sample_env2 : Env := {|
  sync_playwright := sync_playwright sample_env;
  sync_playwright_exit := sync_playwright_exit sample_env;
  webkit_launch := webkit_launch sample_env;
  new_context := new_context sample_env;
  new_page := new_page sample_env;
  set_content := set_content sample_env;
  locator := locator sample_env;
  bounding_box := bounding_box sample_env;
  set_viewport_size := set_viewport_size sample_env;
  screenshot := ok [x89; x50; x4e; x47; x0d; x0a];
  browser_close := browser_close sample_env;
  html_formatter := html_formatter sample_env;
  highlight := highlight sample_env;
  get_style_defs := get_style_defs sample_env;
  background_color := background_color sample_env;
  os := os sample_env;
  nfkd_ascii := nfkd_ascii sample_env;
  urandom16 := 0xfedcba9876543210fedcba9876543210
|}.

(** A machine on which [playwright install] was never run *)
Definition sample_env_no_browser : Env := {|
  sync_playwright := sync_playwright sample_env;
  sync_playwright_exit := sync_playwright_exit sample_env;
  webkit_launch := fun _ =>
    inl (Raise PlaywrightError
           "BrowserType.launch: Executable doesn't exist at /ms-playwright/webkit/pw_run.sh");
  new_context := new_context sample_env;
  new_page := new_page sample_env;
  set_content := set_content sample_env;
  locator := locator sample_env;
  bounding_box := bounding_box sample_env;
  set_viewport_size := set_viewport_size sample_env;
  screenshot := screenshot sample_env;
  browser_close := browser_close sample_env;
  html_formatter := html_formatter sample_env;
  highlight := highlight sample_env;
  get_style_defs := get_style_defs sample_env;
  background_color := background_color sample_env;
  os := os sample_env;
  nfkd_ascii := nfkd_ascii sample_env;
  urandom16 := urandom16 sample_env
|}.

(** A machine on which the content element is not visible:
    [bounding_box()] returns [None]. *)
Definition sample_env_no_box : Env := {|
  sync_playwright := sync_playwright sample_env;
  sync_playwright_exit := sync_playwright_exit sample_env;
  webkit_launch := webkit_launch sample_env;
  new_context := new_context sample_env;
  new_page := new_page sample_env;
  set_content := set_content sample_env;
  locator := locator sample_env;
  bounding_box := ok None;
  set_viewport_size := set_viewport_size sample_env;
  screenshot := screenshot sample_env;
  browser_close := browser_close sample_env;
  html_formatter := html_formatter sample_env;
  highlight := highlight sample_env;
  get_style_defs := get_style_defs sample_env;
  background_color := background_color sample_env;
  os := os sample_env;
  nfkd_ascii := nfkd_ascii sample_env;
  urandom16 := urandom16 sample_env
|}.

Definition upload (name : string) (content : list byte) : Request :=
  {| method := POST;
     files := [("code_file", {| FileStorage.filename := name; FileStorage.stream := content |})];
     content_length := N.of_nat (length content) + 180 |}.

Definition hello_py : Request := upload "hello.py" (list_byte_of_string "print('hello')").

Definition sample_entry : CacheEntry :=
  {| bytes := [x89; x50; x4e; x47]; filename := "hello_code_image.png" |}.

(** The viewport the renderer asks for, from the two measured boxes *)
Definition fitted (bw bh : FloatRect) : Call :=
  SetViewportSize
    (PyNum.min (PyNum.PyInt 1280) (PyNum.add (PyNum.PyFloat (width bw)) (PyNum.PyInt 40)))
    (PyNum.min (PyNum.PyInt 720) (PyNum.add (PyNum.PyFloat (height bh)) (PyNum.PyInt 40))).

Definition notes_txt : Request := upload "my notes.txt" (list_byte_of_string "# todo").

(** The state the first sample upload leaves, and the state a second upload
    leaves after it *)
Definition after_hello : State :=
  snd (index sample_env hello_py (request_state ∅ no_session)).

Definition after_notes : State :=
  snd (index sample_env2 notes_txt
         (request_state (SCREENSHOT_CACHE after_hello) (session after_hello))).

(** A file of exactly [n] bytes, all of them the letter a *)
Definition file_of_size (n : N) : FileStorage.t :=
  {| FileStorage.filename := "big.py"; FileStorage.stream := replicate (N.to_nat n) x61 |}.

(** The session and the state of a visitor who reloads the page, or asks for
    the download, while the sample upload is in the store *)
Definition reload_session : Session :=
  {| cache_id := Some (fresh_id sample_env); is_redirect := None |}.

Definition reload_state : State :=
  {| SCREENSHOT_CACHE := {[fresh_id sample_env := sample_entry]}; session := reload_session;
     flashes := []; calls := [] |}.

Definition start : State := request_state ∅ no_session.

(** An upload whose name is made of separators, dots and blanks only *)
Definition slashes : Request := upload "../ ./" (list_byte_of_string "pass").

(** An upload that is not UTF-8 *)
Definition latin1_py : Request := upload "bad.py" [x63; xe9].

(** The upload of a file of [n] letters, the body [n + 180] bytes long as
    that of [upload] *)
Definition upload_of_size (n : N) : Request :=
  {| method := POST; files := [("code_file", file_of_size n)]; content_length := n + 180 |}.

(** A POST without the part [code_file], its body two million bytes long *)
Definition long_form : Request :=
  {| method := POST; files := [("other", file_of_size 1999000)]; content_length := 2000000 |}.

(** A POST without the part [code_file] and with a short body *)
Definition other_part : Request :=
  {| method := POST; files := [("other", file_of_size 2000)]; content_length := 2180 |}.

(** A part without a file name whose bytes are not UTF-8 *)
Definition unnamed_latin1 : Request := upload EmptyString [xff].

(** The file of [latin1_py] in a body of two million bytes *)
Definition latin1_long : Request :=
  {| method := POST;
     files := [("code_file",
                {| FileStorage.filename := "bad.py"; FileStorage.stream := [x63; xe9] |})];
     content_length := 2000000 |}.

(** A HEAD request on the form *)
Definition head_index : Request := {| method := HEAD; files := []; content_length := 0 |}.

(** The file of [hello_py] and its text *)
Definition hello_file : FileStorage.t :=
  {| FileStorage.filename := "hello.py";
     FileStorage.stream := list_byte_of_string "print('hello')" |}.

Definition hello_code : list N := Byte.to_N <$> list_byte_of_string "print('hello')".

(** ** The template filter [b64encode] and the secret key *)

(** [base64.b64encode]: the standard alphabet, with padding *)
Module Base64.

Definition alphabet : list byte :=
  list_byte_of_string "ABCDEFGHIJKLMNOPQRSTUVWXYZabcdefghijklmnopqrstuvwxyz0123456789+/".

Definition pad : byte := x3d.

(** the character of a six-bit value *)
Definition char (n : N) : byte := nth (N.to_nat n) alphabet pad.

Fixpoint encode (bs : list N) : list byte :=
  match bs with
  | [] => []
  | [a] => [char (a / 4); char (a mod 4 * 16); pad; pad]
  | [a; b] => [char (a / 4); char (a mod 4 * 16 + b / 16); char (b mod 16 * 4); pad]
  | a :: b :: c :: rest =>
      char (a / 4) :: char (a mod 4 * 16 + b / 16) :: char (b mod 16 * 4 + c / 64)
      :: char (c mod 64) :: encode rest
  end.

Definition b64encode (data : list byte) : list byte := encode (Byte.to_N <$> data).

(** The inverse direction, [base64.b64decode] on well-formed input: the
    six-bit value of a character, and the bytes of each group of four. *)
Fixpoint index_from (i : N) (l : list byte) (c : byte) : N :=
  match l with
  | [] => i
  | d :: l' => if Byte.eqb c d then i else index_from (i + 1) l' c
  end.

Definition value (c : byte) : N := index_from 0 alphabet c.

Fixpoint decode (cs : list byte) : list N :=
  match cs with
  | c0 :: c1 :: c2 :: c3 :: rest =>
      let b0 := (value c0 * 4 + value c1 / 16)%N in
      let b1 := (value c1 mod 16 * 16 + value c2 / 4)%N in
      let b2 := (value c2 mod 4 * 64 + value c3)%N in
      if Byte.eqb c2 pad then [b0]
      else if Byte.eqb c3 pad then [b0; b1]
      else b0 :: b1 :: b2 :: decode rest
  | _ => []
  end.

End Base64.

(** The Jinja filter [b64encode_filter]: [base64.b64encode(data).decode('utf-8')] *)
Definition b64encode_filter (data : list byte) : exception + list N :=
  match Utf8.decode_bytes (Base64.b64encode data) with
  | Some text => inr text
  | None => inl (Raise UnicodeDecodeError "'utf-8' codec can't decode bytes")
  end.

(** [bytes.hex()] *)
Fixpoint bytes_hex (bs : list byte) : string :=
  match bs with
  | [] => EmptyString
  | b :: rest =>
      String (PyStr.hexdigit (Byte.to_N b / 16))
        (String (PyStr.hexdigit (Byte.to_N b mod 16)) (bytes_hex rest))
  end.

(** [os.getenv("SECRET_KEY", os.urandom(16).hex())]: the variable when it is
    set, the hexadecimal form of the random bytes when it is not. *)
Definition secret_key (SECRET_KEY : option string) (urandom : list byte) : string :=
  match SECRET_KEY with
  | Some key => key
  | None => bytes_hex urandom
  end.

(** A lower-case hexadecimal digit *)
Definition is_hex (c : ascii) : bool :=
  let n := N_of_ascii c in
  ((48 <=? n) && (n <=? 57) || (97 <=? n) && (n <=? 102))%N.

(** A Unicode scalar value: at most U+10FFFF and no surrogate *)
Definition is_scalar (cp : N) : bool :=
  ((cp <=? 0x10FFFF) && negb ((0xD800 <=? cp) && (cp <=? 0xDFFF)))%N.

(** [str.encode("utf-8")] of one scalar value, and of a text *)
Definition utf8_encode1 (cp : N) : list N :=
  (if cp <? 0x80 then [cp]
   else if cp <? 0x800 then [0xC0 + cp / 64; 0x80 + cp mod 64]
   else if cp <? 0x10000 then [0xE0 + cp / 4096; 0x80 + cp / 64 mod 64; 0x80 + cp mod 64]
   else [0xF0 + cp / 262144; 0x80 + cp / 4096 mod 64; 0x80 + cp / 64 mod 64; 0x80 + cp mod 64])%N.

Fixpoint utf8_encode (text : list N) : list N :=
  match text with
  | [] => []
  | cp :: rest => utf8_encode1 cp ++ utf8_encode rest
  end.

(** The calls a view added to the renderer's trace: [new] when the trace
    went from [tr] to [new ++ tr]. *)
Definition added (tr tr' new : Trace) : Prop := tr' = (new ++ tr)%list.

(** A cache key as [index] makes them: [str] of a version-4 UUID *)
Definition is_uuid4 (k : string) : Prop := exists r, k = Uuid.str (Uuid.uuid4 r).

(** A file name the renderer derives: only characters of [A-Za-z0-9_.-],
    ending in the suffix *)
Definition derived_name (name : string) : Prop :=
  all_chars Werkzeug.safe_char name = true /\ PyStr.endswith "_code_image.png" name = true.

(** A visitor's GET on the state the previous request left *)
Definition get_index : Request := {| method := GET; files := []; content_length := 0 |}.

(** The view run on what an earlier request left behind: a new request
    starts from the store and the session of the old state. *)
Definition next (st : State) : State := request_state (SCREENSHOT_CACHE st) (session st).

(** [cache_id and cache_id in SCREENSHOT_CACHE] for the session's
    [cache_id], and the truth value of the session's [is_redirect] *)
Definition resolves (c : gmap string CacheEntry) (s : Session) : bool :=
  match cache_id s with
  | Some k => PyStr.truthy k && bool_decide (is_Some (c !! k))
  | None => false
  end.

Definition flagged (s : Session) : bool :=
  match is_redirect s with
  | Some b => b
  | None => false
  end.

(** How many calls of a kind a trace holds *)
Fixpoint count_calls (p : Call -> bool) (t : Trace) : nat :=
  match t with
  | [] => 0
  | c :: rest => (if p c then 1 else 0) + count_calls p rest
  end.

Definition is_enter (c : Call) : bool :=
  match c with SyncPlaywright => true | _ => false end.

Definition is_exit (c : Call) : bool :=
  match c with SyncPlaywrightExit => true | _ => false end.

Definition is_close (c : Call) : bool :=
  match c with BrowserClose => true | _ => false end.

Definition is_launch (c : Call) : bool :=
  match c with WebkitLaunch => true | _ => false end.

(** * Properties

    Lemmas about the views first, then the claims of the specification, then
    each claim on a sample request. *)

Lemma truthy_true (k : string) : PyStr.truthy k = true <-> k <> EmptyString.
Proof.
  unfold PyStr.truthy. destruct (String.eqb_spec k EmptyString); simpl; split; congruence.
Qed.

Ltac run_state :=
  unfold flash, in_browser, session_pop_is_redirect, session_get_cache_id,
    session_pop_cache_id, session_set_cache_id, session_set_is_redirect, cache_clear,
    cache_setitem, truthy_and_cached, cache_getitem, cache_pop;
  unfold bind, try_except, ret, throw, get, put, modify, call, set_cache, set_session;
  simpl.

Section Post.
Variables (env : Env) (request : Request) (st : State) (file : FileStorage.t).

Lemma index_post_cleared : index_post env request st = index_post env request (cleared st).
Proof. reflexivity. Qed.

Lemma index_post_refused :
  (MAX_CONTENT_LENGTH < content_length request)%N ->
  index_post env request st
  = (inl ENTITY_TOO_LARGE, cleared st).
Proof.
  intros H. apply N.ltb_lt in H. unfold index_post, request_files. run_state.
  rewrite H. reflexivity.
Qed.

Hypothesis Hbody : (content_length request <= MAX_CONTENT_LENGTH)%N.

Lemma request_files_read (s : State) : request_files request s = (inr (files request), s).
Proof. unfold request_files. apply N.ltb_ge in Hbody. rewrite Hbody. reflexivity. Qed.

Lemma index_post_no_file :
  files_get "code_file" (files request) = None ->
  index_post env request st = (inr form, flashed "No file uploaded." (cleared st)).
Proof.
  intros H. unfold index_post. run_state. rewrite request_files_read, H. reflexivity.
Qed.

Hypothesis Hfile : files_get "code_file" (files request) = Some file.

Lemma index_post_no_name :
  FileStorage.filename file = EmptyString ->
  index_post env request st = (inr form, flashed "No file selected." (cleared st)).
Proof.
  intros H. unfold index_post. run_state. rewrite request_files_read, Hfile, H. reflexivity.
Qed.

Hypothesis Hname : FileStorage.filename file <> EmptyString.

Lemma index_post_too_large :
  (MAX_CONTENT_LENGTH < file_size file)%N ->
  index_post env request st
  = (inr form, flashed "File too large. Maximum size is 1024 KB." (cleared st)).
Proof.
  intros H. unfold index_post. run_state. rewrite request_files_read, Hfile.
  destruct (String.eqb_spec (FileStorage.filename file) EmptyString); [contradiction|].
  apply N.ltb_lt in H. rewrite H. reflexivity.
Qed.

Hypothesis Hsize : (file_size file <= MAX_CONTENT_LENGTH)%N.

Lemma index_post_bad_encoding :
  Utf8.decode_bytes (FileStorage.stream file) = None ->
  index_post env request st
  = (inr form,
     flashed "Invalid file encoding. Please upload a UTF-8 encoded text file." (cleared st)).
Proof.
  intros H. unfold index_post. run_state. rewrite request_files_read, Hfile.
  destruct (String.eqb_spec (FileStorage.filename file) EmptyString); [contradiction|].
  apply N.ltb_ge in Hsize. rewrite Hsize.
  unfold read_decode. rewrite H. reflexivity.
Qed.

Lemma index_post_decoded (code_content : list N) :
  Utf8.decode_bytes (FileStorage.stream file) = Some code_content ->
  index_post env request st
  = index_post_render env code_content
      (Werkzeug.secure_filename (os env) (nfkd_ascii env) (FileStorage.filename file))
      (cleared st).
Proof.
  intros H. unfold index_post. run_state. rewrite request_files_read, Hfile.
  destruct (String.eqb_spec (FileStorage.filename file) EmptyString); [contradiction|].
  apply N.ltb_ge in Hsize. rewrite Hsize.
  unfold read_decode. rewrite H. reflexivity.
Qed.
End Post.

Lemma generate_screenshot_raises (env : Env) code f tr e tr' :
  generate_screenshot env code f tr = (inl e, tr') ->
  exists e0, generate_screenshot_try env code f tr = (inl e0, tr')
    /\ e = Raise RuntimeError
             (if isinstance e0 PlaywrightError && PyStr.contains "Executable doesn't exist" (exc_str e0)
              then BINARIES_MISSING
              else "Failed to generate screenshot: " +:+ exc_str e0).
Proof.
  unfold generate_screenshot, try_except.
  destruct (generate_screenshot_try env code f tr) as [[e0|v] t]; [|discriminate].
  unfold generate_screenshot_except, throw.
  intros H. exists e0.
  destruct (isinstance e0 PlaywrightError); simpl;
    [destruct (PyStr.contains _ _)|]; inversion H; subst; auto.
Qed.

Lemma generate_screenshot_returns (env : Env) code f tr v tr' :
  generate_screenshot env code f tr = (inr v, tr') <->
  generate_screenshot_try env code f tr = (inr v, tr').
Proof.
  unfold generate_screenshot, try_except.
  destruct (generate_screenshot_try env code f tr) as [[e0|v0] t]; [|tauto].
  unfold generate_screenshot_except, throw.
  split; [|discriminate].
  destruct (isinstance e0 PlaywrightError); [destruct (PyStr.contains _ _)|]; discriminate.
Qed.

Lemma index_post_render_ok (env : Env) code f st b name tr' :
  generate_screenshot env code f (calls st) = (inr (b, name), tr') ->
  index_post_render env code f st
  = (inr (redirect "/"),
     {| SCREENSHOT_CACHE := <[fresh_id env := {| bytes := b; filename := name |}]> (SCREENSHOT_CACHE st);
        session := {| cache_id := Some (fresh_id env); is_redirect := Some true |};
        flashes := flashes st; calls := tr' |}).
Proof.
  intros H. unfold index_post_render. run_state. rewrite H. reflexivity.
Qed.

Lemma index_post_render_raises (env : Env) code f st e tr' :
  generate_screenshot env code f (calls st) = (inl e, tr') ->
  index_post_render env code f st
  = (inr form,
     {| SCREENSHOT_CACHE := SCREENSHOT_CACHE st; session := session st;
        flashes := flashes st ++ [(exc_str e, "danger")]; calls := tr' |}).
Proof.
  intros H. destruct (generate_screenshot_raises _ _ _ _ _ _ H) as (e0 & _ & ->).
  unfold index_post_render. run_state. rewrite H. reflexivity.
Qed.

Lemma hex_pad_length (k : nat) (n : N) (acc : string) :
  String.length (PyStr.hex_pad k n acc) = (k + String.length acc)%nat.
Proof.
  revert n acc. induction k as [|k IH]; intros n acc; simpl; [reflexivity|].
  rewrite IH. simpl. lia.
Qed.

Lemma uuid_str_nonempty (u : N) : Uuid.str u <> EmptyString.
Proof.
  unfold Uuid.str.
  pose proof (hex_pad_length 32 u EmptyString) as L.
  destruct (PyStr.hex_pad 32 u EmptyString) as [|c h]; [discriminate L|].
  simpl. discriminate.
Qed.

Lemma fresh_id_truthy (env : Env) : PyStr.truthy (fresh_id env) = true.
Proof. apply truthy_true, uuid_str_nonempty. Qed.

Lemma index_post_outcome (env : Env) (request : Request) (st : State) :
  exists o st',
    index_post env request st = (o, st')
    /\ (((o = inr form /\ (content_length request <= MAX_CONTENT_LENGTH)%N
          \/ o = inl ENTITY_TOO_LARGE /\ (MAX_CONTENT_LENGTH < content_length request)%N
             /\ st' = cleared st)
         /\ SCREENSHOT_CACHE st' = ∅ /\ session st' = no_session)
        \/ (exists e, o = inr (redirect "/") /\ SCREENSHOT_CACHE st' = {[fresh_id env := e]}
              /\ session st' = {| cache_id := Some (fresh_id env); is_redirect := Some true |}
              /\ (content_length request <= MAX_CONTENT_LENGTH)%N)).
Proof.
  destruct (N.lt_ge_cases MAX_CONTENT_LENGTH (content_length request)) as [Hbody|Hbody].
  { eexists _, _. split; [apply index_post_refused; assumption|]. left.
    split; [right; done|done]. }
  destruct (files_get "code_file" (files request)) as [file|] eqn:Hfile.
  2: { eexists _, _. split; [apply index_post_no_file; assumption|]. left. split; [left|]; done. }
  destruct (decide (FileStorage.filename file = EmptyString)) as [Hname|Hname].
  { eexists _, _. split; [eapply index_post_no_name; eassumption|]. left. split; [left|]; done. }
  destruct (N.lt_ge_cases MAX_CONTENT_LENGTH (file_size file)) as [Hsize|Hsize].
  { eexists _, _. split; [eapply index_post_too_large; eassumption|]. left. split; [left|]; done. }
  destruct (Utf8.decode_bytes (FileStorage.stream file)) as [code|] eqn:Hdec.
  2: { eexists _, _. split; [eapply index_post_bad_encoding; eassumption|]. left.
       split; [left|]; done. }
  rewrite (index_post_decoded env request st file Hbody Hfile Hname Hsize code Hdec).
  destruct (generate_screenshot env code
              (Werkzeug.secure_filename (os env) (nfkd_ascii env) (FileStorage.filename file))
              (calls (cleared st))) as [[e|[b name]] tr'] eqn:Hgen.
  - eexists _, _. split; [eapply index_post_render_raises; eassumption|]. left.
    split; [left|]; done.
  - eexists _, _. split; [eapply index_post_render_ok; eassumption|]. right.
    eexists. simpl. split; [done|]. split; [apply insert_empty|]. split; done.
Qed.

Lemma index_get_outcome (st : State) :
  exists r st',
    index_get st = (inr r, st')
    /\ (SCREENSHOT_CACHE st' = SCREENSHOT_CACHE st \/ SCREENSHOT_CACHE st' = ∅)
    /\ (cache_id (session st') = cache_id (session st) \/ cache_id (session st') = None)
    /\ is_redirect (session st') = None
    /\ flashes st' = flashes st /\ calls st' = calls st.
Proof.
  destruct st as [c [cid red] fl tr]. unfold index_get. run_state.
  destruct cid as [k|]; simpl.
  2: { rewrite andb_false_r. eexists _, _. split; [reflexivity|]. simpl. auto 10. }
  destruct (c !! k) as [e|] eqn:E.
  - rewrite bool_decide_eq_true_2 by eauto.
    destruct (negb _ && (PyStr.truthy k && true)); [|destruct (PyStr.truthy k && true)];
      simpl; rewrite ?E; simpl; eexists _, _; (split; [reflexivity|]); simpl; auto 10.
  - rewrite bool_decide_eq_false_2 by (intros [? ?]; congruence).
    rewrite !andb_false_r. eexists _, _. split; [reflexivity|]. simpl. auto 10.
Qed.

Lemma download_image_outcome (st : State) :
  exists r st',
    download_image st = (inr r, st')
    /\ ((SCREENSHOT_CACHE st' = SCREENSHOT_CACHE st /\ session st' = session st)
        \/ (exists k, SCREENSHOT_CACHE st' = delete k (SCREENSHOT_CACHE st)
              /\ session st' = no_session)).
Proof.
  destruct st as [c [cid red] fl tr]. unfold download_image. run_state.
  destruct cid as [k|]; simpl.
  2: { eexists _, _. split; [reflexivity|]. left. done. }
  destruct (c !! k) as [e|] eqn:E.
  - rewrite bool_decide_eq_true_2 by eauto.
    destruct (PyStr.truthy k); simpl; rewrite ?E; simpl; eexists _, _; (split; [reflexivity|]); simpl.
    + right. exists k. done.
    + left. done.
  - rewrite bool_decide_eq_false_2 by (intros [? ?]; congruence).
    rewrite andb_false_r. simpl. eexists _, _. split; [reflexivity|]. left. done.
Qed.

Lemma run_view_cache (v : View) (st : State) :
  size (SCREENSHOT_CACHE st) <= 1 -> size (SCREENSHOT_CACHE (snd (run_view v st))) <= 1.
Proof.
  intros Hsz. destruct v as [env [[| |] fs len]|]; simpl; unfold index; simpl.
  - destruct (index_get_outcome st) as (r & st' & E & [Hc|Hc] & _);
      rewrite E; simpl; rewrite Hc; [done|].
    rewrite map_size_empty. lia.
  - destruct (index_post_outcome env {| method := POST; files := fs; content_length := len |} st)
      as (r & st' & E & [(_ & Hc & _)|(e & _ & Hc & _)]); rewrite E; simpl; rewrite Hc.
    + rewrite map_size_empty. lia.
    + rewrite map_size_singleton. lia.
  - exact Hsz.
  - destruct (download_image_outcome st) as (r & st' & E & [[Hc _]|(k & Hc & _)]);
      rewrite E; simpl; rewrite Hc; [done|].
    rewrite map_size_delete. destruct (SCREENSHOT_CACHE st !! k); simpl; lia.
Qed.

Lemma run_view_session (v : View) (st : State) :
  session_truthy (session st) -> session_truthy (session (snd (run_view v st))).
Proof.
  intros [Hk Hr]. destruct v as [env [[| |] fs len]|]; simpl; unfold index; simpl.
  - destruct (index_get_outcome st) as (r & st' & E & _ & Hc & Hi & _); rewrite E; simpl.
    split; [|congruence]. intros k Ek. destruct Hc as [Hc|Hc]; rewrite Hc in Ek; [eauto|discriminate].
  - destruct (index_post_outcome env {| method := POST; files := fs; content_length := len |} st)
      as (r & st' & E & [(_ & _ & Hs)|(e & _ & _ & Hs & _)]); rewrite E; simpl; rewrite Hs.
    + split; simpl; congruence.
    + split; simpl; [|congruence]. intros k [= <-]. apply uuid_str_nonempty.
  - split; assumption.
  - destruct (download_image_outcome st) as (r & st' & E & [[_ Hs]|(k & _ & Hs)]);
      rewrite E; simpl; rewrite Hs.
    + split; assumption.
    + split; simpl; congruence.
Qed.

Lemma run_view_raises (v : View) (st : State) (e : exception) (st' : State) :
  run_view v st = (inl e, st') ->
  e = ENTITY_TOO_LARGE
  /\ st' = cleared st
  /\ exists env fs len,
       v = ViewIndex env {| method := POST; files := fs; content_length := len |}
       /\ (MAX_CONTENT_LENGTH < len)%N.
Proof.
  destruct v as [env [[| |] fs len]|]; simpl; unfold index; simpl.
  - destruct (index_get_outcome st) as (r & st1 & E & _). rewrite E. discriminate.
  - destruct (index_post_outcome env {| method := POST; files := fs; content_length := len |} st)
      as (o & st1 & E & [([[-> _]|(-> & Hlen & ->)] & _)|(e1 & -> & _)]);
      rewrite E; try discriminate.
    intros [= <- <-]. eauto 10.
  - discriminate.
  - destruct (download_image_outcome st) as (r & st1 & E & _). rewrite E. discriminate.
Qed.

Lemma issued_truthy (s : Session) : issued s -> session_truthy s.
Proof.
  induction 1 as [|cache v s _ IH].
  - split; simpl; congruence.
  - apply run_view_session. exact IH.
Qed.

Lemma reachable_single_slot (c : gmap string CacheEntry) : reachable c -> size c <= 1.
Proof.
  induction 1 as [|cache v s _ IH].
  - rewrite map_size_empty. lia.
  - apply run_view_cache. exact IH.
Qed.

(** ** The renderer, call by call *)

Lemma bind_inr {St A B} (m : M St A) (k : A -> M St B) (s s' : St) (v : B) :
  bind m k s = (inr v, s') ->
  exists a s1, m s = (inr a, s1) /\ k a s1 = (inr v, s').
Proof.
  unfold bind. destruct (m s) as [[e|a] s1]; [discriminate|]. eauto.
Qed.

Lemma perform_inr {A} (c : Call) (answer : Trace -> exception + A) (tr tr' : Trace) (a : A) :
  perform c answer tr = (inr a, tr') -> answer (c :: tr) = inr a /\ tr' = c :: tr.
Proof.
  unfold perform, bind, modify, get, call. intros [= H1 H2]. auto.
Qed.

Lemma attempt_inr {St A} (m : M St A) (s s' : St) (o : exception + A) :
  attempt m s = (inr o, s') -> m s = (o, s').
Proof.
  unfold attempt. destruct (m s) as [r t]. intros [= <- <-]. reflexivity.
Qed.

Lemma subscript_inr (box : option FloatRect) (key : FloatRect -> spec_float)
    (tr tr' : Trace) (v : PyNum.num) :
  subscript box key tr = (inr v, tr') ->
  exists r, box = Some r /\ v = PyNum.PyFloat (key r) /\ tr' = tr.
Proof.
  destruct box as [r|]; simpl; [|discriminate].
  unfold ret. intros [= <- <-]. eauto.
Qed.

Ltac invert_run H :=
  repeat first
    [ apply perform_inr in H; destruct H as [? ?]
    | apply subscript_inr in H; destruct H as (? & ? & ? & ?)
    | let a := fresh "a" in let t := fresh "t" in let E := fresh "E" in
      apply bind_inr in H; destruct H as (a & t & E & H); cbv beta in H;
      first [ apply perform_inr in E; destruct E as [? ?]
            | apply subscript_inr in E; destruct E as (? & ? & ? & ?) ] ].

Lemma generate_screenshot_try_inr (env : Env) code f (tr tr' : Trace) v :
  generate_screenshot_try env code f tr = (inr v, tr') ->
  exists html bw bh png,
    let t0 := Locator ".my_code" :: SetContent html :: BackgroundColor :: GetStyleDefs
              :: Highlight code :: HtmlFormatterNew THEME :: NewPage
              :: NewContext 3 1280 720 :: WebkitLaunch :: SyncPlaywright :: tr in
    bounding_box env (BoundingBox :: t0) = inr (Some bw)
    /\ bounding_box env (BoundingBox :: BoundingBox :: t0) = inr (Some bh)
    /\ tr' = SyncPlaywrightExit :: BrowserClose :: Screenshot "png" :: fitted bw bh
             :: BoundingBox :: BoundingBox :: t0
    /\ v = (png, PyStr.rsplit1_head "." f +:+ "_code_image.png").
Proof.
  unfold generate_screenshot_try, with_sync_playwright. intros H.
  apply bind_inr in H as (? & t1 & E1 & H). apply perform_inr in E1 as [_ ->].
  apply bind_inr in H as (outcome & t2 & E2 & H). apply attempt_inr in E2.
  apply bind_inr in H as (? & t3 & E3 & H). apply perform_inr in E3 as [_ ->].
  unfold call in H. injection H as -> <-.
  unfold generate_screenshot_with in E2.
  invert_run E2. unfold ret in E2. injection E2 as <- <-. subst.
  do 4 eexists. cbv zeta. unfold fitted. repeat split; eauto.
Qed.

(** ** Strings *)

Lemma rsplit1_absent (sep : ascii) (s : string) :
  PyStr.has_char sep s = false -> PyStr.rsplit1 sep s = None.
Proof.
  induction s as [|c s IH]; simpl; [reflexivity|].
  intros H. apply orb_false_iff in H as [Hc Hs].
  rewrite (IH Hs), Hc. reflexivity.
Qed.

Lemma rsplit1_last (sep : ascii) (a t : string) :
  PyStr.has_char sep t = false ->
  PyStr.rsplit1 sep (a +:+ String sep t) = Some (a, t).
Proof.
  intros Ht. induction a as [|c a IH]; simpl.
  - rewrite (rsplit1_absent _ _ Ht), Ascii.eqb_refl. reflexivity.
  - rewrite IH. reflexivity.
Qed.

Lemma endswith_app (a s : string) : PyStr.endswith s (a +:+ s) = true.
Proof.
  induction a as [|c a IH]; simpl.
  - destruct s; simpl; rewrite ?Ascii.eqb_refl, ?String.eqb_refl; reflexivity.
  - rewrite IH. apply orb_true_r.
Qed.

Lemma all_chars_app (p : ascii -> bool) (a b : string) :
  all_chars p (a +:+ b) = all_chars p a && all_chars p b.
Proof.
  induction a as [|c a IH]; simpl; [reflexivity|]. rewrite IH. apply andb_assoc.
Qed.

Lemma all_chars_replace (p : ascii -> bool) (a b : ascii) (s : string) :
  p b = true -> all_chars p s = true -> all_chars p (PyStr.replace_char a b s) = true.
Proof.
  intros Hb. induction s as [|c s IH]; simpl; [reflexivity|].
  intros H. apply andb_true_iff in H as [Hc Hs].
  rewrite (IH Hs). destruct (Ascii.eqb c a); rewrite ?Hb, ?Hc; reflexivity.
Qed.

Lemma all_chars_of_list (p : ascii -> bool) (l : list ascii) :
  all_chars p (string_of_list_ascii l) = forallb p l.
Proof. induction l as [|c l IH]; simpl; [reflexivity|]. rewrite IH. reflexivity. Qed.

Lemma forallb_rev {A} (p : A -> bool) (l : list A) : forallb p (rev l) = forallb p l.
Proof.
  induction l as [|a l IH]; simpl; [reflexivity|].
  rewrite forallb_app, IH. simpl. rewrite andb_true_r. apply andb_comm.
Qed.

Lemma all_chars_split_go (p : ascii -> bool) (s : string) (cur : list ascii) :
  all_chars p s = true -> forallb p cur = true ->
  forallb (all_chars p) (PyStr.split_go s cur) = true.
Proof.
  revert cur. induction s as [|c s IH]; intros cur Hs Hcur; simpl.
  - destruct cur as [|d cur]; [reflexivity|].
    cbn [forallb]. rewrite all_chars_of_list, forallb_rev, Hcur. reflexivity.
  - simpl in Hs. apply andb_true_iff in Hs as [Hc Hs].
    destruct (PyStr.isspace c).
    + destruct cur as [|d cur]; [apply IH; auto|].
      cbn [forallb]. rewrite all_chars_of_list, forallb_rev, Hcur. simpl. apply IH; auto.
    + apply IH; [assumption|]. simpl. rewrite Hc, Hcur. reflexivity.
Qed.

Lemma all_chars_join (p : ascii -> bool) (sep : string) (l : list string) :
  all_chars p sep = true -> forallb (all_chars p) l = true ->
  all_chars p (PyStr.join sep l) = true.
Proof.
  intros Hsep. induction l as [|w l IH]; [reflexivity|].
  intros H. cbn [forallb] in H. apply andb_true_iff in H as [Hw Hl].
  destruct l as [|w' l]; [exact Hw|].
  change (PyStr.join sep (w :: w' :: l)) with (w +:+ sep +:+ PyStr.join sep (w' :: l)).
  rewrite !all_chars_app, Hw, Hsep, (IH Hl). reflexivity.
Qed.

Lemma all_chars_keep (s : string) :
  all_chars unsafe_or_stripped s = true ->
  all_chars (fun c => PyStr.has_char c "._") (PyStr.keep Werkzeug.safe_char s) = true.
Proof.
  induction s as [|c s IH]; [reflexivity|].
  cbn [all_chars PyStr.keep]. intros H. apply andb_true_iff in H as [Hc Hs].
  destruct (Werkzeug.safe_char c) eqn:Sc; [|auto].
  unfold unsafe_or_stripped in Hc. rewrite Sc in Hc. cbn [negb orb] in Hc.
  cbn [all_chars]. rewrite Hc, (IH Hs). reflexivity.
Qed.

Lemma strip_all (chars s : string) :
  all_chars (fun c => PyStr.has_char c chars) s = true -> PyStr.strip chars s = EmptyString.
Proof.
  unfold PyStr.strip. induction s as [|c s IH]; simpl; [reflexivity|].
  intros H. apply andb_true_iff in H as [Hc Hs]. rewrite Hc. auto.
Qed.

(** A name in which nothing survives sanitization: only characters outside
    [A-Za-z0-9-] *)
Lemma secure_filename_empty (o : Werkzeug.Os) (to_ascii : string -> string) (name : string) :
  all_chars unsafe_or_stripped (to_ascii name) = true ->
  Werkzeug.secure_filename o to_ascii name = EmptyString.
Proof.
  intros H. unfold Werkzeug.secure_filename.
  assert (E : PyStr.strip "._"
                (PyStr.keep Werkzeug.safe_char
                   (PyStr.join "_"
                      (PyStr.split
                         match Werkzeug.os_altsep o with
                         | Some sep =>
                             PyStr.replace_char sep " "
                               (PyStr.replace_char (Werkzeug.os_sep o) " " (to_ascii name))
                         | None => PyStr.replace_char (Werkzeug.os_sep o) " " (to_ascii name)
                         end))) = EmptyString).
  { apply strip_all, all_chars_keep, all_chars_join; [reflexivity|].
    apply all_chars_split_go; [|reflexivity].
    destruct (Werkzeug.os_altsep o); repeat apply all_chars_replace; auto. }
  rewrite E. simpl. rewrite andb_false_r. reflexivity.
Qed.

(** ** Numbers *)

Lemma lt_le (a b : PyNum.num) : PyNum.lt a b = true -> PyNum.le a b = true.
Proof.
  destruct a as [x|x], b as [y|y]; simpl;
    try (intros H; apply Z.leb_le; apply Z.ltb_lt in H; lia);
    unfold SFltb, SFleb; destruct (SFcompare _ _) as [[| |]|]; congruence.
Qed.

Lemma min_le_first (a b : PyNum.num) :
  PyNum.le a a = true -> PyNum.le (PyNum.min a b) a = true.
Proof.
  intros Ha. unfold PyNum.min. destruct (PyNum.lt b a) eqn:E; [apply lt_le|]; assumption.
Qed.

(** ** A POST that ends in the redirect *)

Lemma index_post_redirect (env : Env) (request : Request) (st st' : State) (location : string) :
  index_post env request st = (inr (redirect location), st') ->
  exists file code b name,
    files_get "code_file" (files request) = Some file
    /\ FileStorage.filename file <> EmptyString
    /\ (file_size file <= MAX_CONTENT_LENGTH)%N
    /\ Utf8.decode_bytes (FileStorage.stream file) = Some code
    /\ generate_screenshot env code
         (Werkzeug.secure_filename (os env) (nfkd_ascii env) (FileStorage.filename file))
         (calls st) = (inr (b, name), calls st')
    /\ location = "/"
    /\ SCREENSHOT_CACHE st' = {[fresh_id env := {| bytes := b; filename := name |}]}
    /\ session st' = {| cache_id := Some (fresh_id env); is_redirect := Some true |}
    /\ flashes st' = flashes st
    /\ (content_length request <= MAX_CONTENT_LENGTH)%N.
Proof.
  destruct (N.lt_ge_cases MAX_CONTENT_LENGTH (content_length request)) as [Hbody|Hbody].
  { rewrite index_post_refused by assumption. discriminate. }
  destruct (files_get "code_file" (files request)) as [file|] eqn:Hfile.
  2: { rewrite index_post_no_file by assumption. discriminate. }
  destruct (decide (FileStorage.filename file = EmptyString)) as [Hname|Hname].
  { rewrite (index_post_no_name env request st file) by assumption. discriminate. }
  destruct (N.lt_ge_cases MAX_CONTENT_LENGTH (file_size file)) as [Hsize|Hsize].
  { rewrite (index_post_too_large env request st file) by assumption. discriminate. }
  destruct (Utf8.decode_bytes (FileStorage.stream file)) as [code|] eqn:Hdec.
  2: { rewrite (index_post_bad_encoding env request st file) by assumption. discriminate. }
  rewrite (index_post_decoded env request st file Hbody Hfile Hname Hsize code Hdec).
  destruct (generate_screenshot env code
              (Werkzeug.secure_filename (os env) (nfkd_ascii env) (FileStorage.filename file))
              (calls (cleared st))) as [[e|[b name]] tr'] eqn:Hgen.
  - rewrite (index_post_render_raises _ _ _ _ _ _ Hgen). discriminate.
  - rewrite (index_post_render_ok _ _ _ _ _ _ _ Hgen). intros [= <- <-].
    exists file, code, b, name. simpl. rewrite insert_empty. auto 10.
Qed.

(** ** The views on a session whose image is, or is not, in the store *)

Section Lookup.
Variables (c : gmap string CacheEntry) (s : Session) (fl : list (string * string)) (tr : Trace).

Let st : State := {| SCREENSHOT_CACHE := c; session := s; flashes := fl; calls := tr |}.

Lemma download_image_miss :
  (cache_id s = None \/ exists k, cache_id s = Some k /\ c !! k = None) ->
  download_image st = (inr (redirect "/"), flashed NO_IMAGE st).
Proof.
  subst st. destruct s as [cid red]. simpl. unfold download_image. run_state.
  intros [->|(k & -> & E)]; [reflexivity|].
  rewrite E, bool_decide_eq_false_2 by (intros [? ?]; congruence).
  rewrite andb_false_r. reflexivity.
Qed.

Lemma download_image_hit (k : string) (e : CacheEntry) :
  cache_id s = Some k -> k <> EmptyString -> c !! k = Some e ->
  download_image st
  = (inr (attachment e),
     {| SCREENSHOT_CACHE := delete k c; session := no_session; flashes := fl; calls := tr |}).
Proof.
  subst st. destruct s as [cid red]. simpl. intros -> Hk E. apply truthy_true in Hk.
  unfold download_image. run_state.
  rewrite Hk, E, bool_decide_eq_true_2 by eauto. simpl. rewrite E. reflexivity.
Qed.

Lemma index_get_display (k : string) (e : CacheEntry) :
  is_redirect s = Some true -> cache_id s = Some k -> k <> EmptyString -> c !! k = Some e ->
  index_get st
  = (inr (render_template "index.html" (Some (bytes e)) (Some (filename e)) (Some k)),
     {| SCREENSHOT_CACHE := c; session := {| cache_id := Some k; is_redirect := None |};
        flashes := fl; calls := tr |}).
Proof.
  subst st. destruct s as [cid red]. simpl. intros -> -> Hk E. apply truthy_true in Hk.
  unfold index_get. run_state.
  rewrite Hk, E, bool_decide_eq_true_2 by eauto. simpl. rewrite E. reflexivity.
Qed.
End Lookup.

(** The file name plays no part in the rendering: it only names the result. *)
Lemma generate_screenshot_try_name (env : Env) code (f f' : string) (tr : Trace) :
  generate_screenshot_try env code f' tr
  = match generate_screenshot_try env code f tr with
    | (inr (png, _), t) => (inr (png, PyStr.rsplit1_head "." f' +:+ "_code_image.png"), t)
    | (inl e, t) => (inl e, t)
    end.
Proof.
  unfold generate_screenshot_try, with_sync_playwright, generate_screenshot_with, attempt,
    perform, subscript, bind, modify, get, call, ret, throw.
  repeat match goal with
         | |- context [match ?a with inl _ => _ | inr _ => _ end] =>
             destruct a; try reflexivity
         | |- context [match ?a with Some _ => _ | None => _ end] =>
             destruct a; try reflexivity
         end.
Qed.

Lemma generate_screenshot_name (env : Env) code (f f' : string) (tr tr' : Trace) png name :
  generate_screenshot env code f tr = (inr (png, name), tr') ->
  generate_screenshot env code f' tr
  = (inr (png, PyStr.rsplit1_head "." f' +:+ "_code_image.png"), tr').
Proof.
  intros H. apply generate_screenshot_returns in H. apply generate_screenshot_returns.
  rewrite (generate_screenshot_try_name env code f f'), H. reflexivity.
Qed.

(** ** The library models on sample values *)

Example str_N_1024 : PyStr.str_N 1024 = "1024".
Proof. reflexivity. Qed.

Example uuid4_zero : Uuid.str (Uuid.uuid4 0) = "00000000-0000-4000-8000-000000000000".
Proof. vm_compute. reflexivity. Qed.

Example rsplit_py : PyStr.rsplit1_head "." "a.tar.gz" = "a.tar".
Proof. reflexivity. Qed.

Example split_ex : PyStr.split "  ab  c " = ["ab"; "c"].
Proof. reflexivity. Qed.

Example strip_ex : PyStr.strip "._" "__.a_b._" = "a_b".
Proof. reflexivity. Qed.

Example utf8_ok : Utf8.decode [0x68; 0xC3; 0xA9; 0xE2; 0x82; 0xAC]%N = Some [0x68; 0xE9; 0x20AC]%N.
Proof. reflexivity. Qed.

Example utf8_bad : Utf8.decode [0xFF]%N = None.
Proof. reflexivity. Qed.

Example secure_filename_path :
  Werkzeug.secure_filename Werkzeug.posix id "../../etc/my script.py" = "etc_my_script.py".
Proof. reflexivity. Qed.

Example secure_filename_nt :
  Werkzeug.secure_filename Werkzeug.nt id "con.txt" = "_con.txt".
Proof. reflexivity. Qed.

Example head_returns_none : index sample_env head_index reload_state = (inr ReturnedNone, reload_state).
Proof. reflexivity. Qed.

Example min_float :
  PyNum.min (PyNum.PyInt 1280) (PyNum.add (PyNum.PyFloat (PyNum.float_of_int 300)) (PyNum.PyInt 40))
  = PyNum.PyFloat (PyNum.float_of_int 340).
Proof. vm_compute. reflexivity. Qed.

(** * The claims *)

(** C1. Single-slot cache.  Between completed requests the store holds at
    most one entry.  A POST to "/" gives the outcome it gives on a cleared
    store and session, so it clears both before it validates or renders, and
    it leaves either nothing (with the form, or with the 413 of a body over
    the limit) or the one new entry (with the redirect).  After two
    successful uploads in a row the store is exactly the second upload's
    entry: the redirected GET displays it, the download returns it, every
    other key is absent, and a download that presents the first upload's
    session finds no image. *)
Theorem C1_single_slot_cache :
  (forall c, reachable c -> size c <= 1)
  /\ (forall env fs len st,
        let post := index env {| method := POST; files := fs; content_length := len |} in
        post st = post (cleared st)
        /\ exists o st',
             post st = (o, st')
             /\ (((o = inr form \/ o = inl ENTITY_TOO_LARGE)
                  /\ SCREENSHOT_CACHE st' = ∅ /\ session st' = no_session)
                 \/ (exists e, o = inr (redirect "/")
                       /\ SCREENSHOT_CACHE st' = {[fresh_id env := e]}
                       /\ session st'
                          = {| cache_id := Some (fresh_id env); is_redirect := Some true |})))
  /\ (forall env1 fs1 len1 c0 s0 st1 env2 fs2 len2 s1 st2,
        index env1 {| method := POST; files := fs1; content_length := len1 |} (request_state c0 s0)
          = (inr (redirect "/"), st1) ->
        index env2 {| method := POST; files := fs2; content_length := len2 |}
          (request_state (SCREENSHOT_CACHE st1) s1)
          = (inr (redirect "/"), st2) ->
        exists file code e2,
          files_get "code_file" fs2 = Some file
          /\ Utf8.decode_bytes (FileStorage.stream file) = Some code
          /\ generate_screenshot env2 code
               (Werkzeug.secure_filename (os env2) (nfkd_ascii env2) (FileStorage.filename file))
               [] = (inr (bytes e2, filename e2), calls st2)
          /\ SCREENSHOT_CACHE st2 = {[fresh_id env2 := e2]}
          /\ session st2 = {| cache_id := Some (fresh_id env2); is_redirect := Some true |}
          /\ (forall k, k <> fresh_id env2 -> SCREENSHOT_CACHE st2 !! k = None)
          /\ fst (index_get (request_state (SCREENSHOT_CACHE st2) (session st2)))
             = inr (render_template "index.html" (Some (bytes e2)) (Some (filename e2))
                      (Some (fresh_id env2)))
          /\ fst (download_image (request_state (SCREENSHOT_CACHE st2) (session st2)))
             = inr (attachment e2)
          /\ (fresh_id env1 <> fresh_id env2 ->
              fst (download_image (request_state (SCREENSHOT_CACHE st2) (session st1)))
              = inr (redirect "/"))).
Proof.
  split; [exact reachable_single_slot|]. split.
  - intros env fs len st post. split; [reflexivity|].
    destruct (index_post_outcome env {| method := POST; files := fs; content_length := len |} st)
      as (o & st' & E & [([[-> _]|(-> & _)] & Hc & Hs)|(e & -> & Hc & Hs & _)]);
      exists o, st' || (eexists _, st'); (split; [exact E|]); eauto 10.
  - intros env1 fs1 len1 c0 s0 st1 env2 fs2 len2 s1 st2 H1 H2.
    apply index_post_redirect in H1
      as (? & ? & ? & ? & _ & _ & _ & _ & _ & _ & _ & Hs1 & _).
    apply index_post_redirect in H2
      as (file & code & b & name & Hf & _ & _ & Hd & Hg & _ & Hc & Hs & _).
    exists file, code, {| bytes := b; filename := name |}.
    rewrite Hc, Hs, Hs1. simpl in Hg. cbn [bytes filename].
    pose proof (uuid_str_nonempty (Uuid.uuid4 (urandom16 env2))) as N2.
    pose proof (uuid_str_nonempty (Uuid.uuid4 (urandom16 env1))) as N1.
    fold (fresh_id env2) in N2. fold (fresh_id env1) in N1.
    repeat split; try assumption.
    + intros k Hk. apply lookup_singleton_ne. congruence.
    + unfold request_state.
      rewrite (index_get_display _ _ _ _ (fresh_id env2) {| bytes := b; filename := name |});
        [reflexivity| reflexivity | reflexivity | assumption |].
      apply lookup_singleton_eq.
    + unfold request_state.
      rewrite (download_image_hit _ _ _ _ (fresh_id env2) {| bytes := b; filename := name |});
        [reflexivity| reflexivity | assumption |].
      apply lookup_singleton_eq.
    + intros Hne. unfold request_state. rewrite download_image_miss; [reflexivity|].
      right. exists (fresh_id env1). split; [reflexivity|].
      apply lookup_singleton_ne. congruence.
Qed.

(** C2. GET on "/".  The view always pops [is_redirect].  On a session of
    this application: if the flag was absent and the session's [cache_id]
    is in the store, the session loses its [cache_id], the whole store is
    cleared and the form is rendered with no image; if the flag was set and
    the [cache_id] is in the store, the entry's bytes and file name are
    rendered and the store is unchanged; when the session has no [cache_id]
    that is in the store, the form is rendered with no image and store and
    [cache_id] are unchanged.  Nothing is flashed and the renderer is not
    called. *)
Theorem C2_index_get (env : Env) (fs : list (string * FileStorage.t)) (len : N)
    (c : gmap string CacheEntry) (s : Session) (fl : list (string * string)) (tr : Trace) :
  session_truthy s ->
  exists r st',
    index env {| method := GET; files := fs; content_length := len |}
      {| SCREENSHOT_CACHE := c; session := s; flashes := fl; calls := tr |} = (inr r, st')
    /\ is_redirect (session st') = None /\ flashes st' = fl /\ calls st' = tr
    /\ (forall k e, is_redirect s = None -> cache_id s = Some k -> c !! k = Some e ->
          r = render_template "index.html" None None (Some k)
          /\ SCREENSHOT_CACHE st' = ∅ /\ cache_id (session st') = None)
    /\ (forall k e, is_redirect s = Some true -> cache_id s = Some k -> c !! k = Some e ->
          r = render_template "index.html" (Some (bytes e)) (Some (filename e)) (Some k)
          /\ SCREENSHOT_CACHE st' = c /\ cache_id (session st') = Some k)
    /\ ((forall k, cache_id s = Some k -> c !! k = None) ->
          r = render_template "index.html" None None (cache_id s)
          /\ SCREENSHOT_CACHE st' = c /\ cache_id (session st') = cache_id s).
Proof.
  intros [Hk Hr]. destruct s as [cid red]; simpl in *.
  unfold index, index_get; simpl.
  unfold bind, session_pop_is_redirect, session_get_cache_id, truthy_and_cached,
    cache_getitem, session_pop_cache_id, cache_clear, bind, get, modify, ret; simpl.
  destruct red as [[|]|]; [| congruence |]; simpl;
    (destruct cid as [k|]; simpl;
     [ assert (Tk : PyStr.truthy k = true) by (apply truthy_true; auto); rewrite Tk; simpl;
       destruct (c !! k) as [e|] eqn:E; simpl;
       [ rewrite ?bool_decide_eq_true_2 by eauto; simpl; rewrite ?E; simpl
       | rewrite ?bool_decide_eq_false_2 by (intros [? ?]; congruence); simpl ]
     | ]);
    eexists _, _; (split; [reflexivity|]); simpl;
    repeat split; try congruence; intros; simplify_eq; try done.
  all: try (match goal with H : forall k, Some _ = Some k -> _ |- _ => specialize (H _ eq_refl); congruence end).
Qed.

(** C3. One-time download.  On a session of this application: when the
    session has no [cache_id], or one that is not in the store, the view
    flashes the no-image notice and redirects to the form, changing nothing
    else; otherwise it answers with the cached bytes as an attachment named
    by the stored file name, of type image/png, deletes that entry and
    removes [cache_id] and [is_redirect] from the session, so that the next
    download takes the no-image branch. *)
Theorem C3_one_time_download (c : gmap string CacheEntry) (s : Session)
    (fl : list (string * string)) (tr : Trace) :
  session_truthy s ->
  let st := {| SCREENSHOT_CACHE := c; session := s; flashes := fl; calls := tr |} in
  ((cache_id s = None \/ exists k, cache_id s = Some k /\ c !! k = None) ->
   download_image st = (inr (redirect "/"), flashed NO_IMAGE st))
  /\ (forall k e, cache_id s = Some k -> c !! k = Some e ->
        download_image st
        = (inr (MkResponse (bytes e) "image/png"
                  [("Content-Disposition", "attachment; filename=" +:+ filename e)]),
           {| SCREENSHOT_CACHE := delete k c; session := no_session;
              flashes := fl; calls := tr |})
        /\ delete k c !! k = None
        /\ download_image (request_state (delete k c) no_session)
           = (inr (redirect "/"), flashed NO_IMAGE (request_state (delete k c) no_session))).
Proof.
  intros [Hk _] st. split.
  - apply download_image_miss.
  - intros k e Hc He. split; [|split].
    + apply download_image_hit; auto.
    + apply lookup_delete_eq.
    + apply download_image_miss. left. reflexivity.
Qed.

(** C4. Size limit.  The limit is 1048576 bytes, and Flask applies it to
    the whole body when [request.files] is read, before the view's own
    check.  For an upload whose body carries the file: at exactly 1048576
    bytes and at 1048577 bytes or more alike, the view ends in
    [RequestEntityTooLarge] on the cleared state, with nothing flashed and
    nothing rendered; and whatever the size of the file, the view does not
    flash "File too large. Maximum size is 1024 KB.". *)
Theorem C4_size_message_unreachable (env : Env) (fs : list (string * FileStorage.t)) (len : N)
    (st : State) (file : FileStorage.t) :
  let request := {| method := POST; files := fs; content_length := len |} in
  files_get "code_file" fs = Some file ->
  carries request file ->
  let post := index env request st in
  MAX_CONTENT_LENGTH = 1048576%N
  /\ (file_size file = 1048576%N \/ (1048576 + 1 <= file_size file)%N ->
      post = (inl ENTITY_TOO_LARGE, cleared st)
      /\ flashes (snd post) = flashes st /\ calls (snd post) = calls st)
  /\ flashes (snd post) <> (flashes st ++ [(TOO_LARGE, "danger")])%list.
Proof.
  intros request Hfile Hcar post. unfold carries in Hcar. cbn [content_length request] in Hcar.
  split; [reflexivity|].
  assert (Hrefused : (MAX_CONTENT_LENGTH < len)%N ->
                     post = (inl ENTITY_TOO_LARGE, cleared st)).
  { intros H. exact (index_post_refused env request st H). }
  split.
  - intros Hsz. rewrite Hrefused; [repeat split|].
    change MAX_CONTENT_LENGTH with 1048576%N. lia.
  - destruct (N.lt_ge_cases MAX_CONTENT_LENGTH len) as [Hbody|Hbody].
    { rewrite (Hrefused Hbody). simpl. intros H. apply (f_equal length) in H.
      rewrite length_app in H. simpl in H. lia. }
    assert (Hle : (file_size file <= MAX_CONTENT_LENGTH)%N) by lia.
    subst post. unfold index. simpl.
    destruct (decide (FileStorage.filename file = EmptyString)) as [Hname|Hname].
    { rewrite (index_post_no_name env request st file Hbody Hfile Hname). simpl.
      intros H. apply app_inv_head in H. discriminate H. }
    destruct (Utf8.decode_bytes (FileStorage.stream file)) as [code|] eqn:Hdec.
    + rewrite (index_post_decoded env request st file Hbody Hfile Hname Hle code Hdec).
      destruct (generate_screenshot env code
                  (Werkzeug.secure_filename (os env) (nfkd_ascii env) (FileStorage.filename file))
                  (calls (cleared st))) as [[e|[b name]] tr'] eqn:Hgen.
      * rewrite (index_post_render_raises _ _ _ _ _ _ Hgen). simpl.
        intros H. apply app_inv_head in H.
        destruct (generate_screenshot_raises _ _ _ _ _ _ Hgen) as (e0 & _ & ->).
        simpl in H. destruct (_ && _); discriminate H.
      * rewrite (index_post_render_ok _ _ _ _ _ _ _ Hgen). simpl.
        intros H. apply (f_equal length) in H. rewrite length_app in H. simpl in H. lia.
    + rewrite (index_post_bad_encoding env request st file Hbody Hfile Hname Hle Hdec).
      simpl. intros H. apply app_inv_head in H. discriminate H.
Qed.

(** C5. Invalid encoding.  A POST whose file is not valid UTF-8 calls no
    renderer and leaves the store empty and the session without [cache_id].
    When Flask accepts the body that carries the file and the file has a
    name, the view renders the form and flashes the encoding error and
    nothing else. *)
Theorem C5_invalid_encoding (env : Env) (fs : list (string * FileStorage.t)) (len : N)
    (st : State) (file : FileStorage.t) :
  let request := {| method := POST; files := fs; content_length := len |} in
  files_get "code_file" fs = Some file ->
  Utf8.decode_bytes (FileStorage.stream file) = None ->
  (exists o st',
      index env request st = (o, st')
      /\ SCREENSHOT_CACHE st' = ∅
      /\ cache_id (session st') = None
      /\ calls st' = calls st)
  /\ ((len <= MAX_CONTENT_LENGTH)%N ->
      carries request file ->
      FileStorage.filename file <> EmptyString ->
      index env request st = (inr form, flashed INVALID_ENCODING (cleared st))).
Proof.
  intros request Hfile Hdec. unfold index. cbn [method request].
  assert (Hmsg : (len <= MAX_CONTENT_LENGTH)%N ->
                 FileStorage.filename file <> EmptyString ->
                 (file_size file <= MAX_CONTENT_LENGTH)%N ->
                 index_post env request st = (inr form, flashed INVALID_ENCODING (cleared st))).
  { intros Hbody Hname Hsize.
    exact (index_post_bad_encoding env request st file Hbody Hfile Hname Hsize Hdec). }
  split.
  - destruct (N.lt_ge_cases MAX_CONTENT_LENGTH len) as [Hbody|Hbody].
    { rewrite (index_post_refused env request st Hbody). eexists _, _. repeat split. }
    destruct (decide (FileStorage.filename file = EmptyString)) as [Hname|Hname].
    { rewrite (index_post_no_name env request st file Hbody Hfile Hname).
      eexists _, _. repeat split. }
    destruct (N.lt_ge_cases MAX_CONTENT_LENGTH (file_size file)) as [Hsize|Hsize].
    { rewrite (index_post_too_large env request st file Hbody Hfile Hname Hsize).
      eexists _, _. repeat split. }
    rewrite (Hmsg Hbody Hname Hsize). eexists _, _. repeat split.
  - intros Hbody Hcar Hname. apply Hmsg; try assumption.
    unfold carries in Hcar. cbn [content_length request] in Hcar. lia.
Qed.

(** C6. Validation order.  On a POST whose body Flask accepts, the view
    checks, in this order, that the part "code_file" is present, that its
    file name is not empty, that its size is within the limit and that it
    decodes as UTF-8.  The first check that fails renders the form with its
    message, whatever the later checks would say, and neither decodes nor
    renders; only a file that passes all four reaches the renderer.  The
    third check cannot fail when the body carries the file. *)
Theorem C6_validation_order (env : Env) (fs : list (string * FileStorage.t)) (len : N)
    (st : State) :
  (len <= MAX_CONTENT_LENGTH)%N ->
  let request := {| method := POST; files := fs; content_length := len |} in
  let post := index env request st in
  (files_get "code_file" fs = None ->
   post = (inr form, flashed "No file uploaded." (cleared st)))
  /\ (forall file, files_get "code_file" fs = Some file ->
        (FileStorage.filename file = EmptyString ->
         post = (inr form, flashed "No file selected." (cleared st)))
        /\ (FileStorage.filename file <> EmptyString ->
            (MAX_CONTENT_LENGTH < file_size file)%N ->
            post = (inr form, flashed "File too large. Maximum size is 1024 KB." (cleared st)))
        /\ (carries request file -> (file_size file <= MAX_CONTENT_LENGTH)%N)
        /\ (FileStorage.filename file <> EmptyString ->
            (file_size file <= MAX_CONTENT_LENGTH)%N ->
            Utf8.decode_bytes (FileStorage.stream file) = None ->
            post = (inr form,
                    flashed "Invalid file encoding. Please upload a UTF-8 encoded text file."
                      (cleared st)))
        /\ (FileStorage.filename file <> EmptyString ->
            (file_size file <= MAX_CONTENT_LENGTH)%N ->
            forall code_content,
              Utf8.decode_bytes (FileStorage.stream file) = Some code_content ->
              post = index_post_render env code_content
                       (Werkzeug.secure_filename (os env) (nfkd_ascii env)
                          (FileStorage.filename file))
                       (cleared st))).
Proof.
  intros Hbody request post. subst post. unfold index. cbn [method request]. split.
  - apply (index_post_no_file env request st Hbody).
  - intros file Hfile. split; [|split; [|split; [|split]]].
    + apply (index_post_no_name env request st file); assumption.
    + apply (index_post_too_large env request st file); assumption.
    + unfold carries. cbn [content_length request]. lia.
    + apply (index_post_bad_encoding env request st file); assumption.
    + intros; apply (index_post_decoded env request st file); assumption.
Qed.

(** C7. Output file name.  After a successful upload the stored file name is
    the sanitized upload name [f] cut at its last dot, followed by
    "_code_image.png": when [f] is [a], a dot, and a dot-free [t], it is [a]
    with the suffix; when [f] has no dot, it is [f] with the suffix.  It
    always ends in "_code_image.png". *)
Theorem C7_output_filename (env : Env) (fs : list (string * FileStorage.t)) (len : N)
    (st st' : State) (location : string) :
  index env {| method := POST; files := fs; content_length := len |} st
  = (inr (redirect location), st') ->
  exists file e,
    files_get "code_file" fs = Some file
    /\ SCREENSHOT_CACHE st' = {[fresh_id env := e]}
    /\ let f := Werkzeug.secure_filename (os env) (nfkd_ascii env) (FileStorage.filename file) in
       filename e = PyStr.rsplit1_head "." f +:+ "_code_image.png"
       /\ (forall a t, f = a +:+ "." +:+ t -> PyStr.has_char "." t = false ->
             filename e = a +:+ "_code_image.png")
       /\ (PyStr.has_char "." f = false -> filename e = f +:+ "_code_image.png")
       /\ PyStr.endswith "_code_image.png" (filename e) = true.
Proof.
  unfold index. simpl. intros H.
  apply index_post_redirect in H
    as (file & code & b & name & Hf & _ & _ & _ & Hg & _ & Hc & _).
  apply generate_screenshot_returns, generate_screenshot_try_inr in Hg
    as (html & bw & bh & png & _ & _ & _ & [= -> ->]).
  eexists file, _. split; [exact Hf|]. split; [exact Hc|].
  cbv zeta. cbn [filename]. split; [reflexivity|]. repeat split.
  - intros a t -> Ht. unfold PyStr.rsplit1_head.
    change (a +:+ "." +:+ t) with (a +:+ String "." t).
    rewrite rsplit1_last by assumption. reflexivity.
  - intros Hn. unfold PyStr.rsplit1_head. rewrite rsplit1_absent by assumption. reflexivity.
  - apply endswith_app.
Qed.

(** C8. Renderer errors.  Whatever the [try] of [generate_screenshot] raises
    comes out as a [RuntimeError]: with the binaries-missing message when a
    [PlaywrightError] mentions "Executable doesn't exist", and with
    "Failed to generate screenshot: " followed by the underlying message
    otherwise; the two messages are never the same.  The POST view catches
    it, flashes exactly that message and renders the form, with the store
    empty and the session cleared.  No error of the renderer leaves a view:
    the one exception a view ends in is the [RequestEntityTooLarge] of a
    POST whose body is over the limit, raised before the renderer is
    called. *)
Theorem C8_renderer_errors :
  (forall env code f tr e0 tr',
      generate_screenshot_try env code f tr = (inl e0, tr') ->
      generate_screenshot env code f tr
      = (inl (Raise RuntimeError
                (if isinstance e0 PlaywrightError
                    && PyStr.contains "Executable doesn't exist" (exc_str e0)
                 then "Playwright browser binaries are missing. Please ensure 'playwright install' is run during deployment."
                 else "Failed to generate screenshot: " +:+ exc_str e0)), tr'))
  /\ (forall m, BINARIES_MISSING <> "Failed to generate screenshot: " +:+ m)
  /\ (forall env fs len st file code e tr',
        (len <= MAX_CONTENT_LENGTH)%N ->
        files_get "code_file" fs = Some file ->
        FileStorage.filename file <> EmptyString ->
        (file_size file <= MAX_CONTENT_LENGTH)%N ->
        Utf8.decode_bytes (FileStorage.stream file) = Some code ->
        generate_screenshot env code
          (Werkzeug.secure_filename (os env) (nfkd_ascii env) (FileStorage.filename file))
          (calls st) = (inl e, tr') ->
        exc_cls e = RuntimeError
        /\ index env {| method := POST; files := fs; content_length := len |} st
           = (inr form,
              {| SCREENSHOT_CACHE := ∅; session := no_session;
                 flashes := (flashes st ++ [(exc_str e, "danger")])%list; calls := tr' |}))
  /\ (forall v st e st',
        run_view v st = (inl e, st') ->
        e = ENTITY_TOO_LARGE
        /\ st' = cleared st
        /\ exists env fs len,
             v = ViewIndex env {| method := POST; files := fs; content_length := len |}
             /\ (MAX_CONTENT_LENGTH < len)%N).
Proof.
  split; [|split; [|split]].
  - intros env code f tr e0 tr' H. unfold generate_screenshot, try_except. rewrite H.
    unfold generate_screenshot_except, throw.
    destruct (isinstance e0 PlaywrightError); [destruct (PyStr.contains _ _)|]; reflexivity.
  - intros m. discriminate.
  - intros env fs len st file code e tr' Hbody Hfile Hname Hsize Hdec Hgen. split.
    + destruct (generate_screenshot_raises _ _ _ _ _ _ Hgen) as (e0 & _ & ->). reflexivity.
    + unfold index. simpl.
      rewrite (index_post_decoded env {| method := POST; files := fs; content_length := len |}
                 st file Hbody Hfile Hname Hsize code Hdec).
      exact (index_post_render_raises env code _ (cleared st) e tr' Hgen).
  - apply run_view_raises.
Qed.

(** C10. File-name edge cases.  The name the output name is derived from is
    the sanitized upload name.  The rendering succeeds the same under every
    name.  A sanitized name without a dot is kept whole before the suffix; a
    name that sanitizes to the empty string gives exactly
    "_code_image.png", and so does every name made only of characters
    outside [A-Za-z0-9-] (path separators, white space, dots, underscores
    and other unsafe characters). *)
Theorem C10_filename_edge_cases (env : Env) (fs : list (string * FileStorage.t)) (len : N)
    (st st' : State) (location : string) :
  index env {| method := POST; files := fs; content_length := len |} st
  = (inr (redirect location), st') ->
  exists file code e,
    files_get "code_file" fs = Some file
    /\ Utf8.decode_bytes (FileStorage.stream file) = Some code
    /\ SCREENSHOT_CACHE st' = {[fresh_id env := e]}
    /\ let sanitized :=
         Werkzeug.secure_filename (os env) (nfkd_ascii env) (FileStorage.filename file) in
       filename e = PyStr.rsplit1_head "." sanitized +:+ "_code_image.png"
       /\ (forall f', generate_screenshot env code f' (calls st)
                      = (inr (bytes e, PyStr.rsplit1_head "." f' +:+ "_code_image.png"), calls st'))
       /\ (PyStr.has_char "." sanitized = false -> filename e = sanitized +:+ "_code_image.png")
       /\ (sanitized = EmptyString -> filename e = "_code_image.png")
       /\ (all_chars unsafe_or_stripped (nfkd_ascii env (FileStorage.filename file)) = true ->
           sanitized = EmptyString /\ filename e = "_code_image.png").
Proof.
  unfold index. simpl. intros H.
  apply index_post_redirect in H
    as (file & code & b & name & Hf & _ & _ & Hd & Hg & _ & Hc & _).
  pose proof Hg as Hg'.
  apply generate_screenshot_returns, generate_screenshot_try_inr in Hg'
    as (html & bw & bh & png & _ & _ & _ & [= -> ->]).
  eexists file, code, _. split; [exact Hf|]. split; [exact Hd|]. split; [exact Hc|].
  cbv zeta. cbn [filename bytes]. split; [reflexivity|]. split; [|split; [|split]].
  - intros f'. exact (generate_screenshot_name _ _ _ f' _ _ _ _ Hg).
  - intros Hn. unfold PyStr.rsplit1_head. rewrite rsplit1_absent by assumption. reflexivity.
  - intros ->. reflexivity.
  - intros Hall. rewrite (secure_filename_empty _ _ _ Hall). split; reflexivity.
Qed.

(** * The claims on sample requests *)

(** C1 on two uploads in a row, [hello.py] and then [my notes.txt]: only the
    second image is left and can be downloaded. *)
Lemma C1_two_uploads_witness :
  index sample_env hello_py start = (inr (redirect "/"), after_hello)
  /\ index sample_env2 notes_txt
       (request_state (SCREENSHOT_CACHE after_hello) (session after_hello))
     = (inr (redirect "/"), after_notes)
  /\ exists e2,
       SCREENSHOT_CACHE after_notes = {[fresh_id sample_env2 := e2]}
       /\ fst (download_image (request_state (SCREENSHOT_CACHE after_notes) (session after_notes)))
          = inr (attachment e2)
       /\ fst (download_image (request_state (SCREENSHOT_CACHE after_notes) (session after_hello)))
          = inr (redirect "/").
Proof.
  assert (H1 : index sample_env hello_py start = (inr (redirect "/"), after_hello))
    by (vm_compute; reflexivity).
  assert (H2 : index sample_env2 notes_txt
                 (request_state (SCREENSHOT_CACHE after_hello) (session after_hello))
               = (inr (redirect "/"), after_notes))
    by (vm_compute; reflexivity).
  split; [exact H1|]. split; [exact H2|].
  destruct (proj2 (proj2 C1_single_slot_cache) sample_env (files hello_py)
              (content_length hello_py) ∅ no_session after_hello sample_env2 (files notes_txt)
              (content_length notes_txt) (session after_hello) after_notes H1 H2)
    as (file & code & e2 & _ & _ & _ & Hc & _ & _ & _ & Hd & Hold).
  exists e2. split; [exact Hc|]. split; [exact Hd|].
  apply Hold. intros E. vm_compute in E. discriminate E.
Defined.

(** C2 on a plain reload while the sample image is in the store: the store
    is cleared and the form is rendered without an image. *)
Lemma C2_reload_witness :
  session_truthy reload_session
  /\ exists st',
       index sample_env get_index reload_state
       = (inr (render_template "index.html" None None (Some (fresh_id sample_env))), st')
       /\ SCREENSHOT_CACHE st' = ∅
       /\ cache_id (session st') = None
       /\ is_redirect (session st') = None.
Proof.
  assert (Ht : session_truthy reload_session).
  { split; [intros k [= <-]; vm_compute; discriminate | discriminate]. }
  split; [exact Ht|].
  destruct (C2_index_get sample_env [] 0 {[fresh_id sample_env := sample_entry]} reload_session
              [] [] Ht) as (r & st' & E & Hi & _ & _ & Hstale & _).
  destruct (Hstale (fresh_id sample_env) sample_entry eq_refl eq_refl (lookup_singleton_eq _ _))
    as (-> & Hc & Hs).
  exists st'. auto.
Defined.

(** C3 on the sample image: the first download returns it, the second finds
    nothing. *)
Lemma C3_download_witness :
  session_truthy reload_session
  /\ download_image reload_state
     = (inr (attachment sample_entry),
        request_state (delete (fresh_id sample_env) {[fresh_id sample_env := sample_entry]})
          no_session)
  /\ download_image
       (request_state (delete (fresh_id sample_env) {[fresh_id sample_env := sample_entry]})
          no_session)
     = (inr (redirect "/"),
        flashed "No image available for download. Please generate an image first."
          (request_state (delete (fresh_id sample_env) {[fresh_id sample_env := sample_entry]})
             no_session)).
Proof.
  assert (Ht : session_truthy reload_session).
  { split; [intros k [= <-]; vm_compute; discriminate | discriminate]. }
  split; [exact Ht|].
  destruct (C3_one_time_download {[fresh_id sample_env := sample_entry]} reload_session [] [] Ht)
    as [_ Hhit].
  destruct (Hhit (fresh_id sample_env) sample_entry eq_refl (lookup_singleton_eq _ _))
    as (E1 & _ & E2).
  split; [exact E1 | exact E2].
Defined.

(** The size of the sample files *)
Lemma file_of_size_size (n : N) : file_size (file_of_size n) = n.
Proof.
  unfold file_size, file_of_size. cbn [FileStorage.stream].
  rewrite length_replicate. apply N2Nat.id.
Qed.

(** C4 on the upload of a file of 1048576 bytes and of one of 1048577
    bytes: Flask refuses both, and the size message is not flashed. *)
Lemma C4_oversize_witness :
  carries (upload_of_size 1048576) (file_of_size 1048576)
  /\ carries (upload_of_size 1048577) (file_of_size 1048577)
  /\ index sample_env (upload_of_size 1048576) start = (inl ENTITY_TOO_LARGE, cleared start)
  /\ index sample_env (upload_of_size 1048577) start = (inl ENTITY_TOO_LARGE, cleared start)
  /\ flashes (snd (index sample_env (upload_of_size 1048577) start))
     <> [("File too large. Maximum size is 1024 KB.", "danger")].
Proof.
  assert (H0 : carries (upload_of_size 1048576) (file_of_size 1048576)).
  { unfold carries, upload_of_size. cbn [content_length]. rewrite file_of_size_size. lia. }
  assert (H1 : carries (upload_of_size 1048577) (file_of_size 1048577)).
  { unfold carries, upload_of_size. cbn [content_length]. rewrite file_of_size_size. lia. }
  split; [exact H0|]. split; [exact H1|].
  destruct (C4_size_message_unreachable sample_env [("code_file", file_of_size 1048576)]
              (1048576 + 180) start (file_of_size 1048576) eq_refl H0) as (_ & Hat & _).
  destruct (C4_size_message_unreachable sample_env [("code_file", file_of_size 1048577)]
              (1048577 + 180) start (file_of_size 1048577) eq_refl H1) as (_ & Hover & Hmsg).
  split; [|split].
  - apply Hat. left. apply file_of_size_size.
  - apply Hover. right. rewrite file_of_size_size. discriminate.
  - exact Hmsg.
Defined.

(** C5 on a Latin-1 file: the byte E9 is not followed by a continuation
    byte. *)
Lemma C5_latin1_witness :
  Utf8.decode_bytes [x63; xe9] = None
  /\ index sample_env latin1_py start
     = (inr form,
        {| SCREENSHOT_CACHE := ∅; session := no_session;
           flashes := [("Invalid file encoding. Please upload a UTF-8 encoded text file.",
                        "danger")];
           calls := [] |}).
Proof.
  assert (Hd : Utf8.decode_bytes [x63; xe9] = None) by reflexivity.
  split; [exact Hd|].
  refine (proj2 (C5_invalid_encoding sample_env (files latin1_py) (content_length latin1_py)
                   start
                   {| FileStorage.filename := "bad.py"; FileStorage.stream := [x63; xe9] |}
                   eq_refl Hd) _ _ _).
  - discriminate.
  - reflexivity.
  - discriminate.
Defined.

(** C5 as the specification has it fails on two requests whose file is not
    UTF-8: a part without a file name gets "No file selected.", and a file
    sent in a body over the limit gets the 413 and no form at all. *)
Lemma C5_message_counterexample :
  Utf8.decode_bytes [xff] = None
  /\ Utf8.decode_bytes [x63; xe9] = None
  /\ files_get "code_file" (files unnamed_latin1)
     = Some {| FileStorage.filename := EmptyString; FileStorage.stream := [xff] |}
  /\ files_get "code_file" (files latin1_long)
     = Some {| FileStorage.filename := "bad.py"; FileStorage.stream := [x63; xe9] |}
  /\ index sample_env unnamed_latin1 start
     = (inr form, flashed "No file selected." (cleared start))
  /\ index sample_env latin1_long start = (inl ENTITY_TOO_LARGE, cleared start)
  /\ ~ (exists st',
          index sample_env unnamed_latin1 start = (inr form, st')
          /\ flashes st' = [(INVALID_ENCODING, "danger")])
  /\ ~ (exists st', index sample_env latin1_long start = (inr form, st')).
Proof.
  split; [reflexivity|]. split; [reflexivity|]. split; [reflexivity|]. split; [reflexivity|].
  split; [reflexivity|]. split; [reflexivity|]. split.
  - intros (st' & E & Hf). injection E as <-. discriminate Hf.
  - intros (st' & E). discriminate E.
Qed.

(** C6 on a request without the part, on a part without a file name whose
    bytes are not UTF-8 either, and on a named file that is not UTF-8: the
    first failing check answers. *)
Lemma C6_order_witness :
  index sample_env other_part start = (inr form, flashed "No file uploaded." (cleared start))
  /\ index sample_env unnamed_latin1 start
     = (inr form, flashed "No file selected." (cleared start))
  /\ index sample_env latin1_py start
     = (inr form,
        flashed "Invalid file encoding. Please upload a UTF-8 encoded text file."
          (cleared start)).
Proof.
  split; [|split].
  - refine (proj1 (C6_validation_order sample_env (files other_part) (content_length other_part)
                     start _) eq_refl).
    discriminate.
  - refine (proj1 (proj2 (C6_validation_order sample_env (files unnamed_latin1)
                            (content_length unnamed_latin1) start _) _ eq_refl) eq_refl).
    discriminate.
  - refine (proj1 (proj2 (proj2 (proj2 (proj2 (C6_validation_order sample_env
               (files latin1_py) (content_length latin1_py) start _) _ eq_refl)))) _ _ eq_refl).
    + discriminate.
    + discriminate.
    + discriminate.
Defined.

(** C6 as the specification has it fails on a POST without the part whose
    body is over the limit: Flask refuses it, and "No file uploaded." is not
    flashed. *)
Lemma C6_long_form_counterexample :
  files_get "code_file" (files long_form) = None
  /\ index sample_env long_form start = (inl ENTITY_TOO_LARGE, cleared start)
  /\ index sample_env long_form start
     <> (inr form, flashed "No file uploaded." (cleared start)).
Proof.
  split; [reflexivity|].
  assert (H : index sample_env long_form start = (inl ENTITY_TOO_LARGE, cleared start)).
  { apply (index_post_refused sample_env long_form start). reflexivity. }
  split; [exact H|]. rewrite H. discriminate.
Qed.

(** C7 on [hello.py]: the image is stored as [hello_code_image.png]. *)
Lemma C7_hello_witness :
  index sample_env hello_py start = (inr (redirect "/"), after_hello)
  /\ exists e,
       SCREENSHOT_CACHE after_hello = {[fresh_id sample_env := e]}
       /\ filename e = "hello_code_image.png"
       /\ PyStr.endswith "_code_image.png" (filename e) = true.
Proof.
  assert (H : index sample_env hello_py start = (inr (redirect "/"), after_hello))
    by (vm_compute; reflexivity).
  split; [exact H|].
  destruct (C7_output_filename sample_env (files hello_py) (content_length hello_py) start
              after_hello "/" H)
    as (file & e & Hf & Hc & Hn & _ & _ & He).
  injection Hf as <-.
  exists e. split; [exact Hc|]. split; [exact Hn | exact He].
Defined.

(** C8 on a machine without the browser binaries, on one where the content
    cannot be measured, and on an upload Flask refuses *)
Lemma C8_missing_browser_witness :
  index sample_env_no_browser hello_py start
  = (inr form,
     {| SCREENSHOT_CACHE := ∅; session := no_session;
        flashes := [("Playwright browser binaries are missing. Please ensure 'playwright install' is run during deployment.", "danger")];
        calls := [SyncPlaywrightExit; WebkitLaunch; SyncPlaywright] |})
  /\ index sample_env_no_box hello_py start
     = (inr form,
        {| SCREENSHOT_CACHE := ∅; session := no_session;
           flashes := [("Failed to generate screenshot: 'NoneType' object is not subscriptable",
                        "danger")];
           calls := snd (generate_screenshot sample_env_no_box hello_code "hello.py" []) |})
  /\ run_view (ViewIndex sample_env_no_browser (upload_of_size 1048577)) start
     = (inl ENTITY_TOO_LARGE, cleared start)
  /\ calls (cleared start) = [].
Proof.
  destruct C8_renderer_errors as (Hwrap & _ & Hpost & Hraise).
  split; [|split; [|split]].
  - refine (proj2 (Hpost sample_env_no_browser (files hello_py) (content_length hello_py) start
                     hello_file hello_code
                     (Raise RuntimeError BINARIES_MISSING)
                     [SyncPlaywrightExit; WebkitLaunch; SyncPlaywright]
                     _ eq_refl _ _ eq_refl _)).
    + discriminate.
    + discriminate.
    + discriminate.
    + exact (Hwrap sample_env_no_browser hello_code "hello.py" []
               (Raise PlaywrightError
                  "BrowserType.launch: Executable doesn't exist at /ms-playwright/webkit/pw_run.sh")
               [SyncPlaywrightExit; WebkitLaunch; SyncPlaywright] eq_refl).
  - refine (proj2 (Hpost sample_env_no_box (files hello_py) (content_length hello_py) start
                     hello_file hello_code
                     (Raise RuntimeError
                        "Failed to generate screenshot: 'NoneType' object is not subscriptable")
                     _ _ eq_refl _ _ eq_refl _)).
    + discriminate.
    + discriminate.
    + discriminate.
    + vm_compute. reflexivity.
  - destruct (run_view (ViewIndex sample_env_no_browser (upload_of_size 1048577)) start)
      as [[e|r] st'] eqn:E.
    + destruct (Hraise _ _ _ _ E) as (-> & -> & _). reflexivity.
    + exfalso. revert E. simpl. unfold index. simpl.
      rewrite (index_post_refused sample_env_no_browser (upload_of_size 1048577) start);
        [discriminate | reflexivity].
  - reflexivity.
Defined.

(** C10 on the upload name [../ ./], of which sanitization leaves
    nothing *)
Lemma C10_slashes_witness :
  index sample_env slashes start
  = (inr (redirect "/"), snd (index sample_env slashes start))
  /\ exists e,
       SCREENSHOT_CACHE (snd (index sample_env slashes start)) = {[fresh_id sample_env := e]}
       /\ filename e = "_code_image.png".
Proof.
  assert (H : index sample_env slashes start
              = (inr (redirect "/"), snd (index sample_env slashes start)))
    by (vm_compute; reflexivity).
  split; [exact H|].
  destruct (C10_filename_edge_cases sample_env (files slashes) (content_length slashes) start
              _ "/" H)
    as (file & code & e & Hf & _ & Hc & _ & _ & _ & _ & Hu).
  injection Hf as <-.
  exists e. split; [exact Hc|]. apply Hu. reflexivity.
Defined.

(** * Further properties of the code *)

(** ** The filter [b64encode] *)

Lemma b64_sextets :
  forallb (fun n => (Base64.value (Base64.char n) =? n)%N
                    && negb (Byte.eqb (Base64.char n) Base64.pad)
                    && (Byte.to_N (Base64.char n) <? 128)%N)
    (N.of_nat <$> seq 0 64) = true.
Proof. vm_compute. reflexivity. Qed.

Lemma b64_char_spec (n : N) :
  (n < 64)%N ->
  Base64.value (Base64.char n) = n
  /\ Byte.eqb (Base64.char n) Base64.pad = false
  /\ (Byte.to_N (Base64.char n) < 128)%N.
Proof.
  intros Hn. pose proof b64_sextets as H.
  rewrite forallb_forall in H.
  specialize (H n). rewrite !andb_true_iff, negb_true_iff, N.eqb_eq, N.ltb_lt in H.
  assert (In n (N.of_nat <$> seq 0 64)).
  { apply in_map_iff. exists (N.to_nat n). split; [apply N2Nat.id|]. apply in_seq. lia. }
  tauto.
Qed.

(** linear arithmetic with division and remainder by constants *)
Ltac div_lia := zify; Z.to_euclidean_division_equations; lia.

Lemma b64_decode_encode (bs : list N) :
  Forall (fun b => (b < 256)%N) bs -> Base64.decode (Base64.encode bs) = bs.
Proof.
  assert (G : forall n (l : list N), length l <= n ->
              Forall (fun b => (b < 256)%N) l -> Base64.decode (Base64.encode l) = l).
  2: { eapply G. reflexivity. }
  induction n as [|n IH]; intros l Hl Hb.
  { destruct l; [reflexivity | simpl in Hl; lia]. }
  destruct l as [|a [|b [|c rest]]]; [reflexivity|..].
  - apply Forall_cons in Hb as [Ha _].
    cbn [Base64.encode Base64.decode]. rewrite (Byte.byte_dec_lb (eq_refl Base64.pad)).
    destruct (b64_char_spec (a / 4)) as (-> & _ & _); [div_lia|].
    destruct (b64_char_spec (a mod 4 * 16)) as (-> & _ & _); [div_lia|].
    f_equal. div_lia.
  - apply Forall_cons in Hb as [Ha Hb]. apply Forall_cons in Hb as [Hb _].
    cbn [Base64.encode Base64.decode].
    destruct (b64_char_spec (a / 4)) as (-> & _ & _); [div_lia|].
    destruct (b64_char_spec (a mod 4 * 16 + b / 16)) as (-> & _ & _); [div_lia|].
    destruct (b64_char_spec (b mod 16 * 4)) as (-> & -> & _); [div_lia|].
    rewrite (Byte.byte_dec_lb (eq_refl Base64.pad)). f_equal; [div_lia|]. f_equal. div_lia.
  - apply Forall_cons in Hb as [Ha Hb]. apply Forall_cons in Hb as [Hb Hr].
    apply Forall_cons in Hr as [Hc Hr].
    cbn [Base64.encode Base64.decode].
    destruct (b64_char_spec (a / 4)) as (-> & _ & _); [div_lia|].
    destruct (b64_char_spec (a mod 4 * 16 + b / 16)) as (-> & _ & _); [div_lia|].
    destruct (b64_char_spec (b mod 16 * 4 + c / 64)) as (-> & -> & _); [div_lia|].
    destruct (b64_char_spec (c mod 64)) as (-> & -> & _); [div_lia|].
    rewrite IH by (simpl in Hl; auto; lia).
    f_equal; [div_lia|]. f_equal; [div_lia|]. f_equal. div_lia.
Qed.

Lemma list_ind3 {A} (P : list A -> Prop) :
  P [] -> (forall a, P [a]) -> (forall a b, P [a; b]) ->
  (forall a b c l, P l -> P (a :: b :: c :: l)) ->
  forall l, P l.
Proof.
  intros H0 H1 H2 H3.
  assert (G : forall n (l : list A), length l <= n -> P l).
  2: { intros l. eapply G. reflexivity. }
  induction n as [|n IH]; intros l Hl.
  { destruct l; [assumption | simpl in Hl; lia]. }
  destruct l as [|a [|b [|c rest]]]; auto.
  apply H3, IH. simpl in Hl. lia.
Qed.

Lemma utf8_decode_ascii (l : list N) :
  Forall (fun b => (b < 128)%N) l -> Utf8.decode l = Some l.
Proof.
  induction 1 as [|b l Hb _ IH]; [reflexivity|].
  cbn [Utf8.decode]. apply N.ltb_lt in Hb. rewrite Hb, IH. reflexivity.
Qed.

Lemma b64_char_alphabet (n : N) :
  (n < 64)%N -> In (Base64.char n) Base64.alphabet /\ (Byte.to_N (Base64.char n) < 128)%N.
Proof.
  intros Hn. split; [|apply b64_char_spec; assumption].
  unfold Base64.char. apply nth_In.
  change (length Base64.alphabet) with 64. lia.
Qed.

Lemma b64_encode_shape (bs : list N) :
  Forall (fun b => (b < 256)%N) bs ->
  length (Base64.encode bs) = 4 * ((length bs + 2) / 3)
  /\ Forall (fun c => (In c Base64.alphabet \/ c = Base64.pad) /\ (Byte.to_N c < 128)%N)
       (Base64.encode bs).
Proof.
  induction bs as [|a|a b|a b c rest IH] using list_ind3; intros Hb.
  - split; [reflexivity | constructor].
  - apply Forall_cons in Hb as [Ha _]. split; [reflexivity|].
    cbn [Base64.encode]. repeat (apply Forall_cons; split); try apply Forall_nil;
      first [ split; [left|]; apply b64_char_alphabet; div_lia
            | split; [right; reflexivity | vm_compute; reflexivity]
            | exact I ].
  - apply Forall_cons in Hb as [Ha Hb]. apply Forall_cons in Hb as [Hb _].
    split; [reflexivity|].
    cbn [Base64.encode]. repeat (apply Forall_cons; split); try apply Forall_nil;
      first [ split; [left|]; apply b64_char_alphabet; div_lia
            | split; [right; reflexivity | vm_compute; reflexivity]
            | exact I ].
  - apply Forall_cons in Hb as [Ha Hb]. apply Forall_cons in Hb as [Hb Hr].
    apply Forall_cons in Hr as [Hc Hr]. destruct (IH Hr) as [IHl IHf].
    cbn [Base64.encode]. split.
    + cbn [length]. rewrite IHl.
      replace (S (S (S (length rest))) + 2) with (length rest + 2 + 1 * 3) by lia.
      rewrite Nat.div_add by lia. lia.
    + repeat (apply Forall_cons; split); try exact IHf;
        (split; [left|]; apply b64_char_alphabet; div_lia).
Qed.

Lemma to_N_fmap_inj (a b : list byte) : Byte.to_N <$> a = Byte.to_N <$> b -> a = b.
Proof.
  revert b. induction a as [|x a IH]; intros [|y b] H; try discriminate; [reflexivity|].
  injection H as Hx Hr. f_equal; [|auto].
  pose proof (Byte.of_to_N x) as E. rewrite Hx, Byte.of_to_N in E. congruence.
Qed.

Lemma to_N_fmap_bounded (a : list byte) : Forall (fun b => (b < 256)%N) (Byte.to_N <$> a).
Proof.
  induction a as [|x a IH]; constructor; [|exact IH].
  pose proof (Byte.to_N_bounded x). lia.
Qed.

Lemma b64encode_filter_text (data : list byte) :
  b64encode_filter data = inr (Byte.to_N <$> Base64.b64encode data).
Proof.
  unfold b64encode_filter, Utf8.decode_bytes.
  rewrite utf8_decode_ascii; [reflexivity|].
  destruct (b64_encode_shape _ (to_N_fmap_bounded data)) as [_ H].
  unfold Base64.b64encode. induction H as [|c l [_ Hc] _ IH]; constructor; assumption.
Qed.

(** X1. The filter [b64encode] never raises: the Base64 form of any bytes is
    ASCII, so decoding it as UTF-8 gives that text.  The text has four
    characters for every three bytes, rounded up, all of them from the
    Base64 alphabet or the padding sign. *)
Theorem b64encode_filter_total (data : list byte) :
  b64encode_filter data = inr (Byte.to_N <$> Base64.b64encode data)
  /\ length (Base64.b64encode data) = 4 * ((length data + 2) / 3)
  /\ Forall (fun c => In c Base64.alphabet \/ c = Base64.pad) (Base64.b64encode data).
Proof.
  split; [apply b64encode_filter_text|].
  destruct (b64_encode_shape _ (to_N_fmap_bounded data)) as [Hl Hf].
  rewrite length_fmap in Hl. split; [exact Hl|].
  unfold Base64.b64encode. eapply Forall_impl; [exact Hf|]. simpl. tauto.
Qed.

(** X2. The filter loses nothing: decoding its Base64 text gives the bytes
    back, so two images give the same text only when they are the same
    bytes. *)
Theorem b64encode_filter_injective (data : list byte) :
  Base64.decode (Base64.b64encode data) = Byte.to_N <$> data
  /\ forall data', b64encode_filter data' = b64encode_filter data <-> data' = data.
Proof.
  assert (R : forall d, Base64.decode (Base64.b64encode d) = Byte.to_N <$> d).
  { intros d. apply b64_decode_encode, to_N_fmap_bounded. }
  split; [apply R|]. intros data'. split; [|intros ->; reflexivity].
  rewrite !b64encode_filter_text. intros [= H].
  apply to_N_fmap_inj in H. apply to_N_fmap_inj. rewrite <- !R, H. reflexivity.
Qed.

(** ** The secret key *)

Lemma hexdigit_table :
  forallb (fun i => is_hex (PyStr.hexdigit i)
                    && forallb (fun j => implb (Ascii.eqb (PyStr.hexdigit i) (PyStr.hexdigit j))
                                           (i =? j)%N)
                         (N.of_nat <$> seq 0 16))
    (N.of_nat <$> seq 0 16) = true.
Proof. vm_compute. reflexivity. Qed.

Lemma in_below (k : nat) (n : N) : (n < N.of_nat k)%N -> In n (N.of_nat <$> seq 0 k).
Proof.
  intros H. apply in_map_iff. exists (N.to_nat n). split; [apply N2Nat.id|]. apply in_seq. lia.
Qed.

Lemma hexdigit_spec (i : N) :
  (i < 16)%N ->
  is_hex (PyStr.hexdigit i) = true
  /\ forall j, (j < 16)%N -> PyStr.hexdigit i = PyStr.hexdigit j -> i = j.
Proof.
  intros Hi. pose proof hexdigit_table as H. rewrite forallb_forall in H.
  specialize (H i (in_below 16 i Hi)). apply andb_true_iff in H as [H1 H2].
  split; [exact H1|]. intros j Hj E.
  rewrite forallb_forall in H2. specialize (H2 j (in_below 16 j Hj)).
  rewrite E, Ascii.eqb_refl in H2. simpl in H2. apply N.eqb_eq. exact H2.
Qed.

Lemma bytes_hex_shape (bs : list byte) :
  String.length (bytes_hex bs) = 2 * length bs /\ all_chars is_hex (bytes_hex bs) = true.
Proof.
  induction bs as [|b bs [IHl IHc]]; [split; reflexivity|].
  pose proof (Byte.to_N_bounded b) as Hb.
  cbn [bytes_hex String.length all_chars length]. rewrite IHl, IHc. split; [lia|].
  destruct (hexdigit_spec (Byte.to_N b / 16)) as [-> _]; [div_lia|].
  destruct (hexdigit_spec (Byte.to_N b mod 16)) as [-> _]; [div_lia|]. reflexivity.
Qed.

Lemma bytes_hex_inj (a b : list byte) : bytes_hex a = bytes_hex b -> a = b.
Proof.
  revert b. induction a as [|x a IH]; intros [|y b] H; try discriminate; [reflexivity|].
  cbn [bytes_hex] in H. injection H as H1 H2 H3.
  pose proof (Byte.to_N_bounded x) as Hx. pose proof (Byte.to_N_bounded y) as Hy.
  destruct (hexdigit_spec (Byte.to_N x / 16)) as [_ I1]; [div_lia|].
  destruct (hexdigit_spec (Byte.to_N x mod 16)) as [_ I2]; [div_lia|].
  apply I1 in H1; [|div_lia]. apply I2 in H2; [|div_lia].
  f_equal; [|auto].
  assert (E : Byte.to_N x = Byte.to_N y) by div_lia.
  pose proof (Byte.of_to_N x) as Ex. rewrite E, Byte.of_to_N in Ex. congruence.
Qed.

(** X3. The secret key.  With SECRET_KEY unset the key is the hexadecimal
    form of the random bytes: for 16 bytes, 32 lower-case hexadecimal
    digits, and different bytes give different keys.  With SECRET_KEY set
    the key is the variable, whatever it holds, and the random bytes play no
    part. *)
Theorem secret_key_fallback (urandom : list byte) :
  length urandom = 16 ->
  String.length (secret_key None urandom) = 32
  /\ all_chars is_hex (secret_key None urandom) = true
  /\ (forall urandom', secret_key None urandom' = secret_key None urandom <-> urandom' = urandom)
  /\ (forall key, secret_key (Some key) urandom = key).
Proof.
  intros Hl. unfold secret_key. destruct (bytes_hex_shape urandom) as [H1 H2].
  rewrite H1, Hl. repeat split; auto.
  - apply bytes_hex_inj.
  - intros ->. reflexivity.
Qed.

(** ** The UTF-8 codec *)

Ltac to_props :=
  repeat match goal with
         | H : (_ && _) = true |- _ => apply andb_true_iff in H; destruct H
         | H : (_ <=? _)%N = true |- _ => apply N.leb_le in H
         | H : (_ <=? _)%N = false |- _ => apply N.leb_gt in H
         | H : (_ <? _)%N = true |- _ => apply N.ltb_lt in H
         | H : (_ <? _)%N = false |- _ => apply N.ltb_ge in H
         | H : (_ =? _)%N = true |- _ => apply N.eqb_eq in H
         | H : (_ =? _)%N = false |- _ => apply N.eqb_neq in H
         end.

Ltac decide_tests :=
  repeat match goal with
         | |- context [(?a <? ?b)%N] =>
             first [ rewrite (proj2 (N.ltb_lt a b)) by div_lia
                   | rewrite (proj2 (N.ltb_ge a b)) by div_lia ]
         | |- context [(?a <=? ?b)%N] =>
             first [ rewrite (proj2 (N.leb_le a b)) by div_lia
                   | rewrite (proj2 (N.leb_gt a b)) by div_lia ]
         | |- context [(?a =? ?b)%N] =>
             first [ rewrite (proj2 (N.eqb_eq a b)) by div_lia
                   | rewrite (proj2 (N.eqb_neq a b)) by div_lia ]
         end.

Lemma is_scalar_spec (cp : N) :
  is_scalar cp = true <-> (cp <= 0x10FFFF /\ (cp < 0xD800 \/ 0xDFFF < cp))%N.
Proof.
  unfold is_scalar. rewrite andb_true_iff, negb_true_iff, andb_false_iff.
  rewrite N.leb_le, !N.leb_gt. tauto.
Qed.

Lemma utf8_decode_sound (bs : list N) :
  forall text, Utf8.decode bs = Some text ->
  utf8_encode text = bs /\ Forall (fun cp => is_scalar cp = true) text.
Proof.
  assert (G : forall n (l : list N), length l <= n -> forall text, Utf8.decode l = Some text ->
              utf8_encode text = l /\ Forall (fun cp => is_scalar cp = true) text).
  2: { eapply G. reflexivity. }
  induction n as [|n IH]; intros l Hl text H.
  { destruct l; [|simpl in Hl; lia]. injection H as <-. split; [reflexivity | constructor]. }
  destruct l as [|b0 r0]; [injection H as <-; split; [reflexivity | constructor]|].
  cbn [Utf8.decode] in H. unfold Utf8.is_cont, Utf8.payload in H. simpl in Hl.
  destruct (b0 <? 128)%N eqn:T1.
  { apply fmap_Some in H as (t & Hd & ->). destruct (IH r0 ltac:(lia) t Hd) as [E F].
    to_props. split.
    - cbn [utf8_encode]. rewrite E. unfold utf8_encode1. decide_tests. reflexivity.
    - constructor; [|exact F]. apply is_scalar_spec; div_lia. }
  destruct ((194 <=? b0) && (b0 <=? 223))%N eqn:T2.
  { destruct r0 as [|b1 r1]; [discriminate|].
    destruct ((128 <=? b1) && (b1 <=? 191))%N eqn:C1; [|discriminate].
    apply fmap_Some in H as (t & Hd & ->).
    destruct (IH r1 ltac:(simpl in Hl; lia) t Hd) as [E F].
    to_props. split.
    - cbn [utf8_encode]. rewrite E. unfold utf8_encode1. decide_tests.
      cbn [app]. f_equal; [div_lia|]. f_equal. div_lia.
    - constructor; [|exact F]. apply is_scalar_spec; div_lia. }
  destruct ((224 <=? b0) && (b0 <=? 239))%N eqn:T3.
  { destruct r0 as [|b1 [|b2 r2]]; [discriminate..|].
    match type of H with (if ?c then _ else _) = _ => destruct c eqn:C1; [|discriminate] end.
    apply fmap_Some in H as (t & Hd & ->).
    destruct (IH r2 ltac:(simpl in Hl; lia) t Hd) as [E F].
    destruct (b0 =? 224)%N eqn:L; destruct (b0 =? 237)%N eqn:U; to_props;
      try (exfalso; lia); (split;
      [ cbn [utf8_encode]; rewrite E; unfold utf8_encode1; decide_tests;
        cbn [app]; f_equal; [div_lia|]; f_equal; [div_lia|]; f_equal; div_lia
      | constructor; [|exact F]; apply is_scalar_spec; div_lia ]). }
  destruct ((240 <=? b0) && (b0 <=? 244))%N eqn:T4; [|discriminate].
  destruct r0 as [|b1 [|b2 [|b3 r3]]]; [discriminate..|].
  match type of H with (if ?c then _ else _) = _ => destruct c eqn:C1; [|discriminate] end.
  apply fmap_Some in H as (t & Hd & ->).
  destruct (IH r3 ltac:(simpl in Hl; lia) t Hd) as [E F].
  destruct (b0 =? 240)%N eqn:L; destruct (b0 =? 244)%N eqn:U; to_props;
    try (exfalso; lia); (split;
    [ cbn [utf8_encode]; rewrite E; unfold utf8_encode1; decide_tests;
      cbn [app]; f_equal; [div_lia|]; f_equal; [div_lia|]; f_equal; [div_lia|]; f_equal; div_lia
    | constructor; [|exact F]; apply is_scalar_spec; div_lia ]).
Qed.

Lemma utf8_decode_encode1 (cp : N) (rest : list N) :
  is_scalar cp = true ->
  Utf8.decode (utf8_encode1 cp ++ rest) = cons cp <$> Utf8.decode rest.
Proof.
  intros H. apply is_scalar_spec in H. unfold utf8_encode1.
  destruct (cp <? 128)%N eqn:T1; [|destruct (cp <? 2048)%N eqn:T2;
                                    [|destruct (cp <? 65536)%N eqn:T3]]; to_props;
    cbn [app Utf8.decode]; unfold Utf8.is_cont, Utf8.payload.
  - decide_tests. reflexivity.
  - decide_tests. cbn [andb]. do 2 f_equal. div_lia.
  - destruct (decide (cp / 4096 = 0)%N) as [Z|Z];
      [|destruct (decide (cp / 4096 = 13)%N) as [D|D]];
      decide_tests; cbn [andb]; do 2 f_equal; div_lia.
  - destruct (decide (cp / 262144 = 0)%N) as [Z|Z];
      [|destruct (decide (cp / 262144 = 4)%N) as [D|D]];
      decide_tests; cbn [andb]; do 2 f_equal; div_lia.
Qed.

Lemma utf8_decode_complete (text : list N) :
  Forall (fun cp => is_scalar cp = true) text -> Utf8.decode (utf8_encode text) = Some text.
Proof.
  induction 1 as [|cp text Hcp _ IH]; [reflexivity|].
  cbn [utf8_encode]. rewrite utf8_decode_encode1, IH by exact Hcp. reflexivity.
Qed.

(** X4. What the encoding check accepts: the bytes of a file decode to a
    text exactly when they are the UTF-8 encoding of that text and the text
    consists of Unicode scalar values; so no surrogate, no value above
    U+10FFFF and no overlong form passes, and the text determines the
    bytes. *)
Theorem utf8_round_trip (bs : list byte) (text : list N) :
  Utf8.decode_bytes bs = Some text
  <-> Forall (fun cp => is_scalar cp = true) text /\ utf8_encode text = Byte.to_N <$> bs.
Proof.
  unfold Utf8.decode_bytes. split.
  - intros H. apply utf8_decode_sound in H. tauto.
  - intros [H <-]. apply utf8_decode_complete. exact H.
Qed.

(** X5. Plain ASCII files pass the encoding check: a named upload whose
    bytes are all below 128, in a body that Flask accepts, decodes to those
    same values and goes on to the renderer. *)
Theorem ascii_upload_accepted (env : Env) (fs : list (string * FileStorage.t)) (len : N)
    (st : State) (file : FileStorage.t) :
  let request := {| method := POST; files := fs; content_length := len |} in
  (len <= MAX_CONTENT_LENGTH)%N ->
  carries request file ->
  files_get "code_file" fs = Some file ->
  FileStorage.filename file <> EmptyString ->
  Forall (fun b => (Byte.to_N b < 128)%N) (FileStorage.stream file) ->
  Utf8.decode_bytes (FileStorage.stream file) = Some (Byte.to_N <$> FileStorage.stream file)
  /\ index env request st
     = index_post_render env (Byte.to_N <$> FileStorage.stream file)
         (Werkzeug.secure_filename (os env) (nfkd_ascii env) (FileStorage.filename file))
         (cleared st).
Proof.
  intros request Hbody Hcar Hfile Hname Hascii.
  assert (Hsize : (file_size file <= MAX_CONTENT_LENGTH)%N).
  { unfold carries in Hcar. cbn [content_length request] in Hcar. lia. }
  assert (Hdec : Utf8.decode_bytes (FileStorage.stream file)
                 = Some (Byte.to_N <$> FileStorage.stream file)).
  { unfold Utf8.decode_bytes. apply utf8_decode_ascii.
    induction Hascii; constructor; assumption. }
  split; [exact Hdec|]. unfold index. cbn [method request].
  apply (index_post_decoded env request st file Hbody Hfile Hname Hsize).
  exact Hdec.
Qed.

(** ** The views, case by case *)

Lemma index_get_stale (c : gmap string CacheEntry) (s : Session)
    (fl : list (string * string)) (tr : Trace) (k : string) (e : CacheEntry) :
  is_redirect s = None -> cache_id s = Some k -> k <> EmptyString -> c !! k = Some e ->
  index_get {| SCREENSHOT_CACHE := c; session := s; flashes := fl; calls := tr |}
  = (inr (render_template "index.html" None None (Some k)),
     {| SCREENSHOT_CACHE := ∅; session := no_session; flashes := fl; calls := tr |}).
Proof.
  destruct s as [cid red]. simpl. intros -> -> Hk E. apply truthy_true in Hk.
  unfold index_get. run_state.
  rewrite Hk, E, bool_decide_eq_true_2 by eauto. reflexivity.
Qed.

Lemma index_get_unknown (c : gmap string CacheEntry) (s : Session)
    (fl : list (string * string)) (tr : Trace) :
  (cache_id s = None \/ exists k, cache_id s = Some k /\ c !! k = None) ->
  index_get {| SCREENSHOT_CACHE := c; session := s; flashes := fl; calls := tr |}
  = (inr (render_template "index.html" None None (cache_id s)),
     {| SCREENSHOT_CACHE := c; session := {| cache_id := cache_id s; is_redirect := None |};
        flashes := fl; calls := tr |}).
Proof.
  destruct s as [cid red]. simpl. unfold index_get. run_state.
  intros [->|(k & -> & E)]; [rewrite andb_false_r; reflexivity|].
  rewrite E, bool_decide_eq_false_2 by (intros [? ?]; congruence).
  rewrite !andb_false_r. reflexivity.
Qed.

Lemma index_post_uploaded (env : Env) (fs : list (string * FileStorage.t)) (len : N)
    (st st1 : State) (location : string) :
  index env {| method := POST; files := fs; content_length := len |} st
  = (inr (redirect location), st1) ->
  exists e,
    SCREENSHOT_CACHE st1 = {[fresh_id env := e]}
    /\ session st1 = {| cache_id := Some (fresh_id env); is_redirect := Some true |}
    /\ fresh_id env <> EmptyString.
Proof.
  unfold index. simpl. intros H.
  apply index_post_redirect in H as (file & code & b & name & _ & _ & _ & _ & _ & _ & Hc & Hs & _).
  eexists. split; [exact Hc|]. split; [exact Hs|]. apply uuid_str_nonempty.
Qed.

Section Resolved.
Variables (c : gmap string CacheEntry) (s : Session) (fl : list (string * string)) (tr : Trace).

Let st : State := {| SCREENSHOT_CACHE := c; session := s; flashes := fl; calls := tr |}.

Lemma index_get_not_resolved :
resolves c s = false ->
index_get st
= (inr (render_template "index.html" None None (cache_id s)),
   {| SCREENSHOT_CACHE := c; session := {| cache_id := cache_id s; is_redirect := None |};
      flashes := fl; calls := tr |}).
Proof.
subst st. unfold resolves. destruct s as [cid red]. simpl. intros H.
unfold index_get. run_state. rewrite H, andb_false_r. reflexivity.
Qed.

Lemma download_image_not_resolved :
resolves c s = false -> download_image st = (inr (redirect "/"), flashed NO_IMAGE st).
Proof.
subst st. unfold resolves. destruct s as [cid red]. simpl. intros H.
unfold download_image. run_state. rewrite H. reflexivity.
Qed.

Lemma resolves_lookup :
resolves c s = true -> exists k e, cache_id s = Some k /\ k <> EmptyString /\ c !! k = Some e.
Proof.
unfold resolves. destruct (cache_id s) as [k|]; [|discriminate].
intros H. apply andb_true_iff in H as [T H]. apply bool_decide_eq_true in H as [e E].
exists k, e. split; [reflexivity|]. split; [apply truthy_true, T | exact E].
Qed.

Lemma index_get_resolved (k : string) (e : CacheEntry) :
cache_id s = Some k -> k <> EmptyString -> c !! k = Some e ->
index_get st
= if flagged s
  then (inr (render_template "index.html" (Some (bytes e)) (Some (filename e)) (Some k)),
        {| SCREENSHOT_CACHE := c; session := {| cache_id := Some k; is_redirect := None |};
           flashes := fl; calls := tr |})
  else (inr (render_template "index.html" None None (Some k)),
        {| SCREENSHOT_CACHE := ∅; session := no_session; flashes := fl; calls := tr |}).
Proof.
subst st. unfold flagged. destruct s as [cid red]. simpl. intros -> Hk E.
apply truthy_true in Hk. unfold index_get. run_state.
rewrite Hk, E, bool_decide_eq_true_2 by eauto.
destruct red as [[|]|]; simpl; rewrite ?E; reflexivity.
Qed.
End Resolved.

(** ** File names and cache keys *)

Lemma all_chars_keep_ok (p : ascii -> bool) (s : string) : all_chars p (PyStr.keep p s) = true.
Proof.
  induction s as [|c s IH]; [reflexivity|]. cbn [PyStr.keep].
  destruct (p c) eqn:E; [|exact IH]. cbn [all_chars]. rewrite E, IH. reflexivity.
Qed.

Lemma all_chars_lstrip (p : ascii -> bool) (chars s : string) :
  all_chars p s = true -> all_chars p (PyStr.lstrip chars s) = true.
Proof.
  induction s as [|c s IH]; [reflexivity|]. cbn [PyStr.lstrip all_chars].
  intros H. destruct (PyStr.has_char c chars); [|exact H].
  apply andb_true_iff in H as [_ H]. auto.
Qed.

Lemma all_chars_rstrip (p : ascii -> bool) (chars s : string) :
  all_chars p s = true -> all_chars p (PyStr.rstrip chars s) = true.
Proof.
  induction s as [|c s IH]; [reflexivity|]. cbn [PyStr.rstrip all_chars].
  intros H. apply andb_true_iff in H as [Hc Hs]. specialize (IH Hs).
  destruct (PyStr.rstrip chars s) as [|d r].
  - destruct (PyStr.has_char c chars); [reflexivity|]. cbn [all_chars]. rewrite Hc. reflexivity.
  - cbn [all_chars] in *. rewrite Hc, IH. reflexivity.
Qed.

Lemma secure_filename_safe (o : Werkzeug.Os) (to_ascii : string -> string) (name : string) :
  all_chars Werkzeug.safe_char (Werkzeug.secure_filename o to_ascii name) = true.
Proof.
  unfold Werkzeug.secure_filename.
  match goal with
  | |- context [PyStr.strip "._" ?s] =>
      assert (E : all_chars Werkzeug.safe_char (PyStr.strip "._" s) = true)
  end.
  { unfold PyStr.strip. apply all_chars_rstrip, all_chars_lstrip.
    match goal with |- context [PyStr.keep _ ?s] => apply (all_chars_keep_ok Werkzeug.safe_char s) end. }
  destruct (_ && _); [|exact E].
  rewrite all_chars_app, E. reflexivity.
Qed.

Lemma all_chars_rsplit1 (p : ascii -> bool) (sep : ascii) (s : string) :
  all_chars p s = true -> all_chars p (PyStr.rsplit1_head sep s) = true.
Proof.
  unfold PyStr.rsplit1_head. intros H.
  assert (G : forall h t, PyStr.rsplit1 sep s = Some (h, t) -> all_chars p h = true).
  { induction s as [|c s IH]; [discriminate|]. cbn [PyStr.rsplit1 all_chars] in *.
    apply andb_true_iff in H as [Hc Hs]. intros h t.
    destruct (PyStr.rsplit1 sep s) as [[h' t']|].
    - intros [= <- <-]. cbn [all_chars]. rewrite Hc, (IH Hs h' t' eq_refl). reflexivity.
    - destruct (Ascii.eqb c sep); [|discriminate]. intros [= <- <-]. reflexivity. }
  destruct (PyStr.rsplit1 sep s) as [[h t]|]; [eapply G; reflexivity | exact H].
Qed.

Lemma derived_name_ok (o : Werkzeug.Os) (to_ascii : string -> string) (name : string) :
  derived_name (PyStr.rsplit1_head "." (Werkzeug.secure_filename o to_ascii name)
                +:+ "_code_image.png").
Proof.
  split; [|apply endswith_app].
  rewrite all_chars_app, all_chars_rsplit1 by apply secure_filename_safe. reflexivity.
Qed.

Lemma length_append (a b : string) :
  String.length (a +:+ b) = String.length a + String.length b.
Proof. induction a as [|c a IH]; simpl; [reflexivity|]. rewrite IH. reflexivity. Qed.

Lemma length_substring (n m : nat) (s : string) :
  n + m <= String.length s -> String.length (substring n m s) = m.
Proof.
  revert n m. induction s as [|c s IH]; intros n m H; simpl in H.
  - assert (n = 0 /\ m = 0) as [-> ->] by lia. reflexivity.
  - destruct n as [|n]; [destruct m as [|m]; [reflexivity|]|]; simpl.
    + rewrite (IH 0 m) by (simpl; lia). reflexivity.
    + apply IH. lia.
Qed.

Lemma uuid_str_length (u : N) : String.length (Uuid.str u) = 36.
Proof.
  unfold Uuid.str. pose proof (hex_pad_length 32 u EmptyString) as L.
  change (32 + String.length EmptyString) with 32 in L.
  set (h := PyStr.hex_pad 32 u EmptyString) in *.
  rewrite !length_append, !length_substring by (rewrite L; lia). reflexivity.
Qed.

(** A successful upload leaves one entry, under a fresh UUID, with a derived
    name. *)
Lemma index_post_entry (env : Env) (request : Request) (st : State) :
  exists o st',
    index_post env request st = (o, st')
    /\ ((SCREENSHOT_CACHE st' = ∅ /\ session st' = no_session)
        \/ (exists e, SCREENSHOT_CACHE st' = {[fresh_id env := e]}
              /\ derived_name (filename e)
              /\ session st' = {| cache_id := Some (fresh_id env); is_redirect := Some true |})).
Proof.
  destruct (index_post_outcome env request st) as (o & st' & E & [(_ & Hc & Hs)|(e & -> & _)]).
  - exists o, st'. split; [exact E|]. left. auto.
  - exists (inr (redirect "/")), st'. split; [exact E|]. right.
    apply index_post_redirect in E
      as (file & code & b & name & _ & _ & _ & _ & Hg & _ & Hc & Hs & _).
    apply generate_screenshot_returns, generate_screenshot_try_inr in Hg
      as (html & bw & bh & png & _ & _ & _ & [= -> ->]).
    eexists. split; [exact Hc|]. split; [|exact Hs]. apply derived_name_ok.
Qed.

Lemma reachable_inv (c : gmap string CacheEntry) (k : string) (e : CacheEntry) :
  reachable c -> c !! k = Some e ->
  is_uuid4 k /\ String.length k = 36 /\ derived_name (filename e)
  /\ forall k', k' <> k -> c !! k' = None.
Proof.
  intros H. revert k e.
  induction H as [|cache v s Hr IH]; intros k e; [rewrite lookup_empty; discriminate|].
  assert (Hsingle : forall (m : gmap string CacheEntry) k0 e0 k1,
             m !! k0 = Some e0 -> size m <= 1 -> k1 <> k0 -> m !! k1 = None).
  { intros m k0 e0 k1 H0 Hsz Hne. destruct (m !! k1) as [e1|] eqn:E1; [|reflexivity].
    exfalso. rewrite <- (insert_id m k0 e0 H0), <- (insert_delete_eq m) in Hsz.
    rewrite map_size_insert_None in Hsz by apply lookup_delete_eq.
    assert (delete k0 m !! k1 = Some e1) by (rewrite lookup_delete_ne by congruence; exact E1).
    assert (delete k0 m = ∅) as Z by (apply map_size_empty_inv; lia).
    rewrite Z, lookup_empty in H. discriminate. }
  pose proof (reachable_single_slot _ (reachable_request cache v s Hr)) as Hsz.
  intros Hk.
  assert (is_uuid4 k /\ derived_name (filename e)) as [H1 H2].
  2: { split; [exact H1|]. split; [destruct H1 as [r ->]; apply uuid_str_length|].
       split; [exact H2|]. intros k' Hne. eapply Hsingle; eauto. }
  revert Hk. clear Hsz Hsingle.
  destruct v as [env [[| |] fs len]|]; simpl; unfold index; simpl.
  - destruct (index_get_outcome (request_state cache s)) as (r & st' & E & [Hc|Hc] & _);
      rewrite E; simpl; rewrite Hc; simpl.
    + intros Hk. destruct (IH k e Hk) as (? & _ & ? & _). auto.
    + rewrite lookup_empty. discriminate.
  - destruct (index_post_entry env {| method := POST; files := fs; content_length := len |}
                (request_state cache s))
      as (r & st' & E & [(Hc & _)|(e' & Hc & Hd & _)]); rewrite E; simpl; rewrite Hc.
    + rewrite lookup_empty. discriminate.
    + intros Hk. apply lookup_singleton_Some in Hk as [<- <-].
      split; [eexists; reflexivity | exact Hd].
  - intros Hk. destruct (IH k e Hk) as (? & _ & ? & _). auto.
  - destruct (download_image_outcome (request_state cache s))
      as (r & st' & E & [[Hc _]|(k0 & Hc & _)]); rewrite E; simpl; rewrite Hc; simpl.
    + intros Hk. destruct (IH k e Hk) as (? & _ & ? & _). auto.
    + intros Hk. apply lookup_delete_Some in Hk as [_ Hk].
      destruct (IH k e Hk) as (? & _ & ? & _). auto.
Qed.

(** X12. Every entry the store can hold between requests sits under the
    [str] of a version-4 UUID, 36 characters long, carries a file name made
    of characters of [A-Za-z0-9_.-] that ends in "_code_image.png", and is
    the only entry. *)
Theorem reachable_entries (c : gmap string CacheEntry) (k : string) (e : CacheEntry) :
  reachable c -> c !! k = Some e ->
  is_uuid4 k /\ String.length k = 36 /\ derived_name (filename e)
  /\ forall k', k' <> k -> c !! k' = None.
Proof. apply reachable_inv. Qed.

(** X13. A download from a store the process can hold either redirects to
    the form or answers with the attachment of a cached entry, whose file
    name, the one written into the Content-Disposition header, has only
    characters of [A-Za-z0-9_.-]; after the attachment the store is empty. *)
Theorem download_header_safe (c : gmap string CacheEntry) (s : Session) (r : Response)
    (st' : State) :
  reachable c ->
  download_image (request_state c s) = (inr r, st') ->
  r = redirect "/"
  \/ exists e,
       r = MkResponse (bytes e) "image/png"
             [("Content-Disposition", "attachment; filename=" +:+ filename e)]
       /\ all_chars Werkzeug.safe_char (filename e) = true
       /\ SCREENSHOT_CACHE st' = ∅.
Proof.
  intros Hr. unfold request_state. destruct (resolves c s) eqn:R.
  - destruct (resolves_lookup c s R) as (k & e & Hk & Hn & E).
    rewrite (download_image_hit c s [] [] k e Hk Hn E). intros [= <- <-].
    right. exists e. destruct (reachable_inv c k e Hr E) as (_ & _ & [Hs _] & Ho).
    split; [reflexivity|]. split; [exact Hs|]. cbn [SCREENSHOT_CACHE].
    apply map_eq. intros k'. rewrite lookup_empty.
    destruct (decide (k' = k)) as [->|Hne]; [apply lookup_delete_eq|].
    rewrite lookup_delete_ne by congruence. apply Ho. exact Hne.
  - rewrite download_image_not_resolved by exact R. intros [= <- _]. left. reflexivity.
Qed.

(** X14. A session this application has issued holds, as [cache_id], only
    the [str] of a version-4 UUID (36 characters, never empty), and as
    [is_redirect] only [True]; the flag is never set without a
    [cache_id]. *)
Theorem issued_sessions (s : Session) :
  issued s ->
  (forall k, cache_id s = Some k -> is_uuid4 k /\ String.length k = 36 /\ k <> EmptyString)
  /\ (is_redirect s = None \/ is_redirect s = Some true)
  /\ (is_redirect s = Some true -> exists k, cache_id s = Some k).
Proof.
  assert (U : forall k, is_uuid4 k -> is_uuid4 k /\ String.length k = 36 /\ k <> EmptyString).
  { intros k [r ->]. split; [eexists; reflexivity|].
    split; [apply uuid_str_length | apply uuid_str_nonempty]. }
  induction 1 as [|cache v s _ (IH1 & IH2 & IH3)].
  - simpl. split; [discriminate|]. split; [auto | discriminate].
  - destruct v as [env [[| |] fs len]|]; simpl; unfold index; simpl.
    + destruct (index_get_outcome (request_state cache s)) as (r & st' & E & _ & Hc & Hi & _).
      rewrite E. simpl. rewrite Hi. split; [|split; [auto | discriminate]].
      intros k Hk. destruct Hc as [Hc|Hc]; rewrite Hc in Hk; [auto | discriminate].
    + destruct (index_post_entry env {| method := POST; files := fs; content_length := len |}
                  (request_state cache s))
        as (r & st' & E & [(_ & Hs)|(e' & _ & _ & Hs)]); rewrite E; simpl; rewrite Hs; simpl.
      * split; [discriminate|]. split; [auto | discriminate].
      * split; [|split; [auto | eauto]]. intros k [= <-]. apply U. eexists. reflexivity.
    + auto.
    + destruct (download_image_outcome (request_state cache s))
        as (r & st' & E & [[_ Hs]|(k0 & _ & Hs)]); rewrite E; simpl; rewrite Hs; simpl.
      * auto.
      * split; [discriminate|]. split; [auto | discriminate].
Qed.

(** ** Sequences of requests *)

(** X6. When an upload succeeds.  A POST answers with the redirect exactly
    when Flask accepts the body, the part is present, its file name is not
    empty, its size is within the limit, its bytes decode and the renderer
    returns.  Otherwise it answers with the form, or ends in
    [RequestEntityTooLarge], the latter exactly when the body is over the
    limit. *)
Theorem upload_succeeds_iff (env : Env) (fs : list (string * FileStorage.t)) (len : N)
    (st : State) :
  let request := {| method := POST; files := fs; content_length := len |} in
  ((exists st', index env request st = (inr (redirect "/"), st'))
   <-> (len <= MAX_CONTENT_LENGTH)%N
       /\ exists file code png name tr',
            files_get "code_file" fs = Some file
            /\ FileStorage.filename file <> EmptyString
            /\ (file_size file <= MAX_CONTENT_LENGTH)%N
            /\ Utf8.decode_bytes (FileStorage.stream file) = Some code
            /\ generate_screenshot env code
                 (Werkzeug.secure_filename (os env) (nfkd_ascii env)
                    (FileStorage.filename file))
                 (calls st) = (inr (png, name), tr'))
  /\ (forall o st', index env request st = (o, st') ->
        o = inr (redirect "/") \/ o = inr form \/ o = inl ENTITY_TOO_LARGE)
  /\ ((exists st', index env request st = (inl ENTITY_TOO_LARGE, st'))
      <-> (MAX_CONTENT_LENGTH < len)%N).
Proof.
  intros request. unfold index. cbn [method request].
  pose proof (index_post_outcome env request st) as Hout. cbn [content_length request] in Hout.
  split; [split|split; [|split]].
  - intros [st' H].
    apply index_post_redirect in H
      as (file & code & b & name & H1 & H2 & H3 & H4 & H5 & _ & _ & _ & _ & H6).
    split; [exact H6|]. exists file, code, b, name, (calls st'). auto.
  - intros (Hbody & file & code & png & name & tr' & H1 & H2 & H3 & H4 & H5).
    rewrite (index_post_decoded env request st file Hbody H1 H2 H3 code H4).
    eexists. apply index_post_render_ok. exact H5.
  - intros o st' H.
    destruct Hout as (o0 & st0 & E & [([[-> _]|(-> & _)] & _)|(e & -> & _)]);
      rewrite E in H; injection H as <- _; auto.
  - intros [st' H].
    destruct Hout as (o0 & st0 & E & [([[-> _]|(-> & Hlen & _)] & _)|(e & -> & _)]);
      rewrite E in H; try discriminate H. exact Hlen.
  - intros Hlen. eexists. apply (index_post_refused env request st Hlen).
Qed.

(** X7. Displaying the image does not consume it.  After a successful upload
    the download returns the stored entry, whether it is asked for at once
    or after the redirected GET has displayed the image; the displaying GET
    leaves the store as it is, and the download leaves it empty. *)
Theorem upload_then_download (env env' : Env) (fs : list (string * FileStorage.t)) (len : N)
    (c0 : gmap string CacheEntry) (s0 : Session) (st1 : State) :
  index env {| method := POST; files := fs; content_length := len |} (request_state c0 s0)
    = (inr (redirect "/"), st1) ->
  exists file code e st2,
    files_get "code_file" fs = Some file
    /\ Utf8.decode_bytes (FileStorage.stream file) = Some code
    /\ generate_screenshot env code
         (Werkzeug.secure_filename (os env) (nfkd_ascii env) (FileStorage.filename file))
         [] = (inr (bytes e, filename e), calls st1)
    /\ SCREENSHOT_CACHE st1 = {[fresh_id env := e]}
    /\ download_image (next st1) = (inr (attachment e), request_state ∅ no_session)
    /\ index env' get_index (next st1)
       = (inr (render_template "index.html" (Some (bytes e)) (Some (filename e))
                 (Some (fresh_id env))), st2)
    /\ SCREENSHOT_CACHE st2 = SCREENSHOT_CACHE st1
    /\ download_image (next st2) = (inr (attachment e), request_state ∅ no_session).
Proof.
  unfold index at 1. cbn [method]. intros H.
  apply index_post_redirect in H
    as (file & code & b & name & Hf & _ & _ & Hd & Hg & _ & Hc & Hs & _).
  pose proof (uuid_str_nonempty (Uuid.uuid4 (urandom16 env))) as Hn. fold (fresh_id env) in Hn.
  exists file, code, {| bytes := b; filename := name |}. eexists.
  split; [exact Hf|]. split; [exact Hd|]. split; [exact Hg|]. split; [exact Hc|].
  unfold next, index, get_index, request_state. cbn [method]. rewrite Hc, Hs.
  set (e := {| bytes := b; filename := name |}).
  split; [|split; [|split]].
  - rewrite (download_image_hit _ _ _ _ (fresh_id env) e);
      [rewrite delete_singleton_eq; reflexivity | reflexivity | exact Hn | apply lookup_singleton_eq].
  - apply (index_get_display _ _ _ _ (fresh_id env) e);
      [reflexivity | reflexivity | exact Hn | apply lookup_singleton_eq].
  - reflexivity.
  - cbn [SCREENSHOT_CACHE session].
    rewrite (download_image_hit _ _ _ _ (fresh_id env) e);
      [rewrite delete_singleton_eq; reflexivity | reflexivity | exact Hn | apply lookup_singleton_eq].
Qed.


(** X8. Reloading throws the image away.  After a successful upload the
    redirected GET displays the image; one more GET renders the form without
    it and leaves the store empty and the session cleared, after which the
    download finds no image and a further GET changes nothing. *)
Theorem upload_then_reload (env env1 env2 : Env) (fs : list (string * FileStorage.t))
    (len : N) (c0 : gmap string CacheEntry) (s0 : Session) (st1 : State) :
  index env {| method := POST; files := fs; content_length := len |} (request_state c0 s0)
    = (inr (redirect "/"), st1) ->
  exists e st2,
    index env1 get_index (next st1)
    = (inr (render_template "index.html" (Some (bytes e)) (Some (filename e))
              (Some (fresh_id env))), st2)
    /\ index env2 get_index (next st2)
       = (inr (render_template "index.html" None None (Some (fresh_id env))),
          request_state ∅ no_session)
    /\ download_image (request_state ∅ no_session)
       = (inr (redirect "/"), flashed NO_IMAGE (request_state ∅ no_session))
    /\ index env2 get_index (request_state ∅ no_session)
       = (inr (render_template "index.html" None None None), request_state ∅ no_session).
Proof.
  intros H. apply index_post_uploaded in H as (e & Hc & Hs & Hn).
  exists e. eexists.
  unfold next, index, get_index, request_state. cbn [method]. rewrite Hc, Hs.
  split; [|split; [|split]].
  - apply (index_get_display _ _ _ _ (fresh_id env) e);
      [reflexivity | reflexivity | exact Hn | apply lookup_singleton_eq].
  - cbn [SCREENSHOT_CACHE session].
    apply (index_get_stale _ _ _ _ (fresh_id env) e);
      [reflexivity | reflexivity | exact Hn | apply lookup_singleton_eq].
  - apply download_image_miss. left. reflexivity.
  - reflexivity.
Qed.

(** X9. After two GETs in a row by one visitor, from any store and any
    session, the session's [cache_id] no longer resolves: the store is the
    one before or empty, the flag is gone, a download finds no image and a
    third GET changes nothing. *)
Theorem two_gets (env1 env2 env3 : Env) (c : gmap string CacheEntry) (s : Session) :
  let st1 := snd (index env1 get_index (request_state c s)) in
  let st2 := snd (index env2 get_index (next st1)) in
  resolves (SCREENSHOT_CACHE st2) (session st2) = false
  /\ is_redirect (session st2) = None
  /\ (SCREENSHOT_CACHE st2 = c \/ SCREENSHOT_CACHE st2 = ∅)
  /\ download_image (next st2) = (inr (redirect "/"), flashed NO_IMAGE (next st2))
  /\ index env3 get_index (next st2)
     = (inr (render_template "index.html" None None (cache_id (session st2))), next st2).
Proof.
  unfold index, get_index, next, request_state. cbn [method].
  assert (Done : forall (c' : gmap string CacheEntry) cid,
             resolves c' {| cache_id := cid; is_redirect := None |} = false ->
             (c' = c \/ c' = ∅) ->
             let st2 := {| SCREENSHOT_CACHE := c'; session := {| cache_id := cid; is_redirect := None |};
                           flashes := []; calls := [] |} in
             resolves (SCREENSHOT_CACHE st2) (session st2) = false
             /\ is_redirect (session st2) = None
             /\ (SCREENSHOT_CACHE st2 = c \/ SCREENSHOT_CACHE st2 = ∅)
             /\ download_image st2 = (inr (redirect "/"), flashed NO_IMAGE st2)
             /\ index_get st2
                = (inr (render_template "index.html" None None (cache_id (session st2))), st2)).
  { intros c' cid R Hc st2. subst st2. cbn [SCREENSHOT_CACHE session cache_id is_redirect].
    split; [exact R|]. split; [reflexivity|]. split; [exact Hc|].
    split; [apply download_image_not_resolved; exact R|].
    rewrite index_get_not_resolved by exact R. reflexivity. }
  destruct (resolves c s) eqn:R.
  - destruct (resolves_lookup c s R) as (k & e & Hk & Hn & E).
    rewrite (index_get_resolved c s [] [] k e Hk Hn E).
    destruct (flagged s); cbn [snd SCREENSHOT_CACHE session].
    + rewrite (index_get_resolved c {| cache_id := Some k; is_redirect := None |} [] [] k e
                 eq_refl Hn E). cbn [flagged is_redirect snd SCREENSHOT_CACHE session].
      apply (Done ∅ None); [reflexivity | auto].
    + rewrite index_get_not_resolved by reflexivity. apply (Done ∅ None); [reflexivity | auto].
  - rewrite (index_get_not_resolved c s [] [] R). cbn [snd SCREENSHOT_CACHE session].
    rewrite index_get_not_resolved by exact R. apply (Done c (cache_id s)); [exact R | auto].
Qed.

(** X10. A POST by anyone evicts what the others had cached.  After any POST
    to "/", successful or not, a visitor whose [cache_id] is not the fresh one
    gets, from the download, the no-image redirect, and from a GET, the form
    without an image. *)
Theorem post_evicts_others (env env' : Env) (fs : list (string * FileStorage.t)) (len : N)
    (c : gmap string CacheEntry) (poster other : Session) :
  cache_id other <> Some (fresh_id env) ->
  let st' := snd (index env {| method := POST; files := fs; content_length := len |}
                    (request_state c poster)) in
  let st := request_state (SCREENSHOT_CACHE st') other in
  download_image st = (inr (redirect "/"), flashed NO_IMAGE st)
  /\ fst (index env' get_index st) = inr (render_template "index.html" None None (cache_id other)).
Proof.
  intros Hne st' st. subst st st'. unfold index at 2. cbn [method].
  assert (R : resolves
                (SCREENSHOT_CACHE
                   (snd (index_post env {| method := POST; files := fs; content_length := len |}
                           (request_state c poster)))) other = false).
  { destruct (index_post_outcome env {| method := POST; files := fs; content_length := len |}
                (request_state c poster))
      as (r & st' & E & [(_ & Hc & _)|(e & _ & Hc & _)]); rewrite E; simpl; rewrite Hc;
      unfold resolves; destruct (cache_id other) as [k|]; try reflexivity.
    - rewrite lookup_empty, bool_decide_eq_false_2 by (intros [? ?]; discriminate).
      apply andb_false_r.
    - rewrite lookup_singleton_ne by congruence.
      rewrite bool_decide_eq_false_2 by (intros [? ?]; discriminate). apply andb_false_r. }
  unfold request_state, index, get_index. cbn [method]. split.
  - apply download_image_not_resolved. exact R.
  - rewrite index_get_not_resolved by exact R. reflexivity.
Qed.

(** X11. What is flashed.  A GET on "/" returns and flashes nothing; a HEAD
    on "/" returns [None] and changes nothing.  A POST that redirects
    flashes nothing, one that renders the form appends exactly one message,
    of category "danger", to those already queued, and one that ends in an
    exception ends in [RequestEntityTooLarge] with nothing flashed.  A
    download returns: the attachment with nothing flashed, or the redirect
    with exactly one message appended. *)
Theorem flashes_per_request (v : View) (st : State) :
  exists o st',
    run_view v st = (o, st')
    /\ match v with
       | ViewIndex _ request =>
           match method request, o with
           | GET, inr _ => flashes st' = flashes st
           | GET, inl _ => False
           | HEAD, o => o = inr ReturnedNone /\ st' = st
           | POST, inr (redirect _) => flashes st' = flashes st
           | POST, inr _ =>
               exists message, flashes st' = (flashes st ++ [(message, "danger")])%list
           | POST, inl e => e = ENTITY_TOO_LARGE /\ flashes st' = flashes st
           end
       | ViewDownload =>
           match o with
           | inr (MkResponse _ _ _) => flashes st' = flashes st
           | inr _ => exists message, flashes st' = (flashes st ++ [(message, "danger")])%list
           | inl _ => False
           end
       end.
Proof.
  destruct v as [env [[| |] fs len]|]; simpl; unfold index; simpl.
  - destruct (index_get_outcome st) as (r & st' & E & _ & _ & _ & Hf & _).
    exists (inr r), st'. split; [exact E | exact Hf].
  - set (request := {| method := POST; files := fs; content_length := len |}).
    destruct (N.lt_ge_cases MAX_CONTENT_LENGTH (content_length request)) as [Hbody|Hbody].
    { eexists _, _. split; [apply index_post_refused; assumption|]. split; reflexivity. }
    destruct (files_get "code_file" (files request)) as [file|] eqn:Hfile.
    2: { eexists _, _. split; [apply index_post_no_file; assumption|]. simpl. eauto. }
    destruct (decide (FileStorage.filename file = EmptyString)) as [Hname|Hname].
    { eexists _, _. split; [eapply index_post_no_name; eassumption|]. simpl. eauto. }
    destruct (N.lt_ge_cases MAX_CONTENT_LENGTH (file_size file)) as [Hsize|Hsize].
    { eexists _, _. split; [eapply index_post_too_large; eassumption|]. simpl. eauto. }
    destruct (Utf8.decode_bytes (FileStorage.stream file)) as [code|] eqn:Hdec.
    2: { eexists _, _. split; [eapply index_post_bad_encoding; eassumption|]. simpl. eauto. }
    rewrite (index_post_decoded env request st file Hbody Hfile Hname Hsize code Hdec).
    destruct (generate_screenshot env code
                (Werkzeug.secure_filename (os env) (nfkd_ascii env) (FileStorage.filename file))
                (calls (cleared st))) as [[e|[b name]] tr'] eqn:Hgen.
    + eexists _, _. split; [eapply index_post_render_raises; eassumption|]. simpl. eauto.
    + eexists _, _. split; [eapply index_post_render_ok; eassumption|]. reflexivity.
  - eexists _, _. split; [reflexivity|]. split; reflexivity.
  - destruct st as [c s fl tr]. destruct (resolves c s) eqn:R.
    + destruct (resolves_lookup c s R) as (k & e & Hk & Hn & E).
      eexists _, _. split; [apply (download_image_hit c s fl tr k e Hk Hn E)|]. reflexivity.
    + eexists _, _. split; [apply download_image_not_resolved; exact R|]. simpl. eauto.
Qed.

(** ** The renderer's use of the browser *)

Ltac run_renderer :=
  unfold generate_screenshot, try_except, generate_screenshot_try, with_sync_playwright,
    generate_screenshot_with, generate_screenshot_except, attempt, perform, subscript,
    bind, modify, get, call, ret, throw;
  repeat match goal with
         | |- context [match ?a with inl _ => _ | inr _ => _ end] => destruct a eqn:?
         | |- context [match ?a with Some _ => _ | None => _ end] => destruct a eqn:?
         | |- context [if isinstance ?e ?c then _ else _] => destruct (isinstance e c)
         | |- context [if PyStr.contains ?a ?b then _ else _] => destruct (PyStr.contains a b)
         end.

(** X15. The Playwright context is left on every path.  If entering it
    raises, nothing else is called and the rendering fails.  If it is
    entered, the last call of the rendering, successful or not, is the one
    that leaves it, and it is entered and left exactly once. *)
Theorem context_always_left (env : Env) (code : list N) (f : string) (tr : Trace) :
  let run := generate_screenshot env code f tr in
  match sync_playwright env (SyncPlaywright :: tr) with
  | inl _ => snd run = SyncPlaywright :: tr /\ exists e, fst run = inl e
  | inr _ =>
      exists mid,
        snd run = SyncPlaywrightExit :: mid
        /\ count_calls is_exit (snd run) = S (count_calls is_exit tr)
        /\ count_calls is_enter (snd run) = S (count_calls is_enter tr)
  end.
Proof.
  cbv zeta. run_renderer; simpl; eauto.
Qed.

(** X16. [browser.close()] is called on success only.  On a machine where
    closing the browser and leaving the context do not raise, a rendering
    that returns has called [browser.close()] once and one that fails has
    not called it; the browser is launched at most once. *)
Theorem browser_closed_on_success_only (env : Env) (code : list N) (f : string) (tr : Trace) :
  (forall t, browser_close env t = inr tt) ->
  (forall t, sync_playwright_exit env t = inr tt) ->
  let run := generate_screenshot env code f tr in
  count_calls is_close (snd run)
  = count_calls is_close tr + match fst run with inr _ => 1 | inl _ => 0 end
  /\ count_calls is_launch (snd run) <= S (count_calls is_launch tr).
Proof.
  intros Hc He. cbv zeta.
  destruct (generate_screenshot env code f tr) as [r tr'] eqn:E. cbn [fst snd]. revert E.
  run_renderer; intros E; try subst r; try discriminate E; inversion E; subst; simpl;
    try (match goal with
         | H : browser_close env _ = inl _ |- _ => rewrite Hc in H; discriminate H
         | H : sync_playwright_exit env _ = inl _ |- _ => rewrite He in H; discriminate H
         end);
    split; lia.
Qed.

(** X17. The viewport.  In every successful rendering the page starts from
    the 1280 by 720 context, the content element is measured, and the one
    viewport request made before the screenshot asks for width
    [min(1280, w + 40)] and height [min(720, h + 40)], [w] and [h] being the
    measured width and height.  Neither exceeds 1280 or 720, whatever was
    measured, and a content that fits with its margin gets exactly its size
    plus 40. *)
Theorem viewport_clamped (env : Env) (code : list N) (f : string) (tr tr' : Trace)
    (v : list byte * string) :
  generate_screenshot env code f tr = (inr v, tr') ->
  exists bw bh t0,
    let w := PyNum.add (PyNum.PyFloat (width bw)) (PyNum.PyInt 40) in
    let h := PyNum.add (PyNum.PyFloat (height bh)) (PyNum.PyInt 40) in
    let vw := PyNum.min (PyNum.PyInt 1280) w in
    let vh := PyNum.min (PyNum.PyInt 720) h in
    bounding_box env (BoundingBox :: t0) = inr (Some bw)
    /\ bounding_box env (BoundingBox :: BoundingBox :: t0) = inr (Some bh)
    /\ In (NewContext 3 1280 720) t0
    /\ tr' = SyncPlaywrightExit :: BrowserClose :: Screenshot "png" :: SetViewportSize vw vh
             :: BoundingBox :: BoundingBox :: t0
    /\ PyNum.le vw (PyNum.PyInt 1280) = true
    /\ PyNum.le vh (PyNum.PyInt 720) = true
    /\ (PyNum.lt w (PyNum.PyInt 1280) = true -> vw = w)
    /\ (PyNum.lt h (PyNum.PyInt 720) = true -> vh = h)
    /\ (PyNum.lt w (PyNum.PyInt 1280) = false -> vw = PyNum.PyInt 1280)
    /\ (PyNum.lt h (PyNum.PyInt 720) = false -> vh = PyNum.PyInt 720).
Proof.
  intros H. apply generate_screenshot_returns, generate_screenshot_try_inr in H
    as (html & bw & bh & png & Hw & Hh & -> & _).
  exists bw, bh. eexists. cbv zeta. split; [exact Hw|]. split; [exact Hh|].
  split; [simpl; tauto|]. split; [reflexivity|].
  split; [apply min_le_first; reflexivity|]. split; [apply min_le_first; reflexivity|].
  unfold PyNum.min. repeat split; intros ->; reflexivity.
Qed.

(** * The further properties on sample requests *)

(** X3 on sixteen zero bytes *)
Lemma secret_key_fallback_witness :
  length (replicate 16 x00) = 16
  /\ String.length (secret_key None (replicate 16 x00)) = 32
  /\ all_chars is_hex (secret_key None (replicate 16 x00)) = true.
Proof.
  split; [reflexivity|].
  destruct (secret_key_fallback (replicate 16 x00) eq_refl) as (H1 & H2 & _).
  split; assumption.
Defined.

(** X5 on [hello.py] *)
Lemma ascii_upload_witness :
  Forall (fun b => (Byte.to_N b < 128)%N) (FileStorage.stream hello_file)
  /\ Utf8.decode_bytes (FileStorage.stream hello_file) = Some hello_code
  /\ index sample_env hello_py start
     = index_post_render sample_env hello_code "hello.py" (cleared start).
Proof.
  assert (A : Forall (fun b => (Byte.to_N b < 128)%N) (FileStorage.stream hello_file)).
  { repeat constructor. }
  split; [exact A|].
  refine (ascii_upload_accepted sample_env (files hello_py) (content_length hello_py) start
            hello_file _ _ eq_refl _ A).
  - discriminate.
  - reflexivity.
  - discriminate.
Defined.

(** X7 on [hello.py]: the download returns the sample entry, at once or after
    the image was displayed. *)
Lemma upload_then_download_witness :
  index sample_env hello_py start = (inr (redirect "/"), after_hello)
  /\ exists e,
       SCREENSHOT_CACHE after_hello = {[fresh_id sample_env := e]}
       /\ download_image (next after_hello) = (inr (attachment e), request_state ∅ no_session)
       /\ download_image (next (snd (index sample_env get_index (next after_hello))))
          = (inr (attachment e), request_state ∅ no_session).
Proof.
  assert (H : index sample_env hello_py start = (inr (redirect "/"), after_hello))
    by (vm_compute; reflexivity).
  split; [exact H|].
  destruct (upload_then_download sample_env sample_env (files hello_py)
              (content_length hello_py) ∅ no_session after_hello H)
    as (file & code & e & st2 & _ & _ & _ & Hc & Hd & Hg & _ & Hd2).
  exists e. split; [exact Hc|]. split; [exact Hd|]. rewrite Hg. exact Hd2.
Defined.

(** X8 on [hello.py]: the second GET leaves nothing. *)
Lemma upload_then_reload_witness :
  index sample_env hello_py start = (inr (redirect "/"), after_hello)
  /\ index sample_env get_index
       (next (snd (index sample_env get_index (next after_hello))))
     = (inr (render_template "index.html" None None (Some (fresh_id sample_env))),
        request_state ∅ no_session).
Proof.
  assert (H : index sample_env hello_py start = (inr (redirect "/"), after_hello))
    by (vm_compute; reflexivity).
  split; [exact H|].
  destruct (upload_then_reload sample_env sample_env sample_env (files hello_py)
              (content_length hello_py) ∅ no_session after_hello H)
    as (e & st2 & Hg & Hr & _).
  rewrite Hg. exact Hr.
Defined.

(** X10: the second sample upload evicts the image of the first visitor. *)
Lemma post_evicts_others_witness :
  cache_id (session after_hello) <> Some (fresh_id sample_env2)
  /\ download_image (request_state (SCREENSHOT_CACHE after_notes) (session after_hello))
     = (inr (redirect "/"),
        flashed NO_IMAGE (request_state (SCREENSHOT_CACHE after_notes) (session after_hello))).
Proof.
  assert (H : cache_id (session after_hello) <> Some (fresh_id sample_env2)).
  { intros E. vm_compute in E. discriminate E. }
  split; [exact H|].
  exact (proj1 (post_evicts_others sample_env2 sample_env (files notes_txt)
                  (content_length notes_txt) (SCREENSHOT_CACHE after_hello)
                  (session after_hello) (session after_hello) H)).
Defined.

Lemma after_hello_reachable : reachable (SCREENSHOT_CACHE after_hello).
Proof. exact (reachable_request ∅ (ViewIndex sample_env hello_py) no_session reachable_start). Qed.

Lemma after_hello_entry : SCREENSHOT_CACHE after_hello !! fresh_id sample_env = Some sample_entry.
Proof. vm_compute. reflexivity. Qed.

(** X12 on the store the sample upload leaves *)
Lemma reachable_entries_witness :
  reachable (SCREENSHOT_CACHE after_hello)
  /\ SCREENSHOT_CACHE after_hello !! fresh_id sample_env = Some sample_entry
  /\ String.length (fresh_id sample_env) = 36
  /\ derived_name (filename sample_entry).
Proof.
  split; [exact after_hello_reachable|]. split; [exact after_hello_entry|].
  destruct (reachable_entries _ _ _ after_hello_reachable after_hello_entry)
    as (_ & Hl & Hd & _).
  split; [exact Hl | exact Hd].
Defined.

(** X13 on the store the sample upload leaves *)
Lemma download_header_witness :
  reachable (SCREENSHOT_CACHE after_hello)
  /\ download_image (next after_hello) = (inr (attachment sample_entry), request_state ∅ no_session)
  /\ all_chars Werkzeug.safe_char (filename sample_entry) = true.
Proof.
  assert (H : download_image (next after_hello)
              = (inr (attachment sample_entry), request_state ∅ no_session))
    by (vm_compute; reflexivity).
  split; [exact after_hello_reachable|]. split; [exact H|].
  destruct (download_header_safe _ _ _ _ after_hello_reachable H) as [D|(e & E & Hs & _)];
    [discriminate D|].
  unfold attachment in E. simpl in E. injection E as _ Hf.
  change (filename sample_entry = filename e) in Hf. rewrite Hf. exact Hs.
Defined.

Lemma after_hello_issued : issued (session after_hello).
Proof. exact (issued_request ∅ (ViewIndex sample_env hello_py) no_session issued_new). Qed.

(** X14 on the session the sample upload leaves *)
Lemma issued_sessions_witness :
  issued (session after_hello)
  /\ cache_id (session after_hello) = Some (fresh_id sample_env)
  /\ String.length (fresh_id sample_env) = 36.
Proof.
  split; [exact after_hello_issued|]. split; [reflexivity|].
  destruct (issued_sessions _ after_hello_issued) as (Hk & _).
  destruct (Hk (fresh_id sample_env) eq_refl) as (_ & Hl & _). exact Hl.
Defined.

(** X16 on the machine where the content cannot be measured, and on the one
    where everything works *)
Lemma browser_closed_witness :
  count_calls is_close (snd (generate_screenshot sample_env_no_box hello_code "hello.py" [])) = 0
  /\ count_calls is_close (snd (generate_screenshot sample_env hello_code "hello.py" [])) = 1.
Proof.
  split.
  - exact (proj1 (browser_closed_on_success_only sample_env_no_box hello_code "hello.py" []
                    (fun _ => eq_refl) (fun _ => eq_refl))).
  - exact (proj1 (browser_closed_on_success_only sample_env hello_code "hello.py" []
                    (fun _ => eq_refl) (fun _ => eq_refl))).
Defined.

(** X17 on a content of 300 by 96 pixels: the viewport asked for is 340 by
    136. *)
Lemma viewport_clamped_witness :
  generate_screenshot sample_env [112; 97; 115; 115]%N "hello.py" []
  = (inr ([x89; x50; x4e; x47], "hello_code_image.png"),
     snd (generate_screenshot sample_env [112; 97; 115; 115]%N "hello.py" []))
  /\ In (SetViewportSize (PyNum.PyFloat (PyNum.float_of_int 340))
                         (PyNum.PyFloat (PyNum.float_of_int 136)))
        (snd (generate_screenshot sample_env [112; 97; 115; 115]%N "hello.py" []))
  /\ PyNum.le (PyNum.PyFloat (PyNum.float_of_int 340)) (PyNum.PyInt 1280) = true.
Proof.
  assert (H : generate_screenshot sample_env [112; 97; 115; 115]%N "hello.py" []
              = (inr ([x89; x50; x4e; x47], "hello_code_image.png"),
                 snd (generate_screenshot sample_env [112; 97; 115; 115]%N "hello.py" [])))
    by (vm_compute; reflexivity).
  split; [exact H|].
  destruct (viewport_clamped sample_env _ _ _ _ _ H)
    as (bw & bh & t0 & Hw & Hh & _ & Ht & Hle & _).
  injection Hw as <-. injection Hh as <-.
  split; [|exact Hle].
  rewrite Ht. right; right; right; left. reflexivity.
Defined.
